(** * cybsi-sdk: generic observation forms, views and relationship forecasts

    A shallow embedding of the data-mapping layer of the SDK:

    - [cybsi/api/observation/generic.py]   (module [Generic])
    - [cybsi/api/observable/relationships.py] (module [Relationships])
    - [cybsi_sdk/client/observations/generic.py] (module [Legacy])

    Python dictionaries are association lists that keep insertion order,
    JSON-compatible values are the inductive type [JSON], exceptions are the
    [Raise] outcome of [result].  A form is its [_data] document, and every
    method that returns [self] returns the updated form. *)

From Stdlib Require Import String Ascii List ZArith NArith Lia Bool.
From Stdlib Require Import PrimFloat.
Import ListNotations.

Set Warnings "-register-all,-inexact-float".

Local Open Scope string_scope.
Local Open Scope list_scope.

(* ================================================================== *)
(** ** Python values *)

(** What [json.dumps] accepts: [None], [bool], [int], [float], [str],
    [list] and [dict] with string keys. *)
Inductive JSON : Type :=
| JNull
| JBool (b : bool)
| JInt (n : Z)
| JFloat (x : float)
| JStr (s : string)
| JArr (items : list JSON)
| JObj (fields : list (string * JSON)).

(** A [dict] with string keys, in insertion order. *)
Definition dict : Type := list (string * JSON).

(** Exceptions the modelled code can raise. *)
Inductive exn : Type :=
| MissingField (key : string)
| AttributeError (attr : string)
| TypeError
| ValueError
| DecodeError
| ConnectionError.

Inductive result (A : Type) : Type :=
| OK (a : A)
| Raise (e : exn).

Arguments OK {A} a.
Arguments Raise {A} e.

Definition bind {A B : Type} (m : result A) (k : A -> result B) : result B :=
  match m with
  | OK a => k a
  | Raise e => Raise e
  end.

Notation "x <- m ;; k" := (bind m (fun x => k))
  (at level 61, m at next level, right associativity).
Notation "' pat <- m ;; k" := (bind m (fun x => match x with pat => k end))
  (at level 61, pat pattern, m at next level, right associativity).

Fixpoint mapM {A B : Type} (f : A -> result B) (l : list A) : result (list B) :=
  match l with
  | [] => OK []
  | a :: l' => b <- f a ;; bs <- mapM f l' ;; OK (b :: bs)
  end.

(** *** dict operations *)

(** [d.get(k)]: the value stored under [k], if any. *)
Fixpoint dict_get (k : string) (d : dict) : option JSON :=
  match d with
  | [] => None
  | (k', v) :: d' => if String.eqb k k' then Some v else dict_get k d'
  end.

(** [d[k] = v]: an existing key keeps its position, a new key goes last. *)
Fixpoint dict_set (k : string) (v : JSON) (d : dict) : dict :=
  match d with
  | [] => [(k, v)]
  | (k', v') :: d' =>
      if String.eqb k k' then (k', v) :: d' else (k', v') :: dict_set k v d'
  end.

(** [d.setdefault(k, v)]: the stored value, after storing [v] when [k] was
    missing; the second component is the dictionary afterwards. *)
Definition dict_setdefault (k : string) (v : JSON) (d : dict) : JSON * dict :=
  match dict_get k d with
  | Some v' => (v', d)
  | None => (v, dict_set k v d)
  end.

(** [d.get(k, default)]. *)
Definition dict_get_default (k : string) (default : JSON) (d : dict) : JSON :=
  match dict_get k d with
  | Some v => v
  | None => default
  end.

Definition dict_keys (d : dict) : list string := map fst d.

(** *** Methods called on a value that is held by reference

    The forms reach into their document: [setdefault] on the value stored
    under a key, [append] on the value returned by that.  A value of the
    wrong type has no such method. *)

Definition obj_setdefault (o : JSON) (k : string) (v : JSON)
  : result (JSON * JSON) :=
  match o with
  | JObj d => let (x, d') := dict_setdefault k v d in OK (x, JObj d')
  | _ => Raise (AttributeError "setdefault")
  end.

Definition list_append (l : JSON) (x : JSON) : result JSON :=
  match l with
  | JArr items => OK (JArr (items ++ [x]))
  | _ => Raise (AttributeError "append")
  end.

(** Writing a mutated element back to where the reference came from. *)
Definition obj_store (o : JSON) (k : string) (v : JSON) : result JSON :=
  match o with
  | JObj d => OK (JObj (dict_set k v d))
  | _ => Raise TypeError
  end.

(** [for x in v]: lists yield their items, strings their characters,
    dictionaries their keys; nothing else is iterable. *)
Fixpoint chars_of (s : string) : list JSON :=
  match s with
  | EmptyString => []
  | String c s' => JStr (String c EmptyString) :: chars_of s'
  end.

Definition py_iter (v : JSON) : result (list JSON) :=
  match v with
  | JArr items => OK items
  | JStr s => OK (chars_of s)
  | JObj d => OK (map JStr (dict_keys d))
  | _ => Raise TypeError
  end.

(* ================================================================== *)
(** ** uuid.UUID *)

(** A UUID is its 128-bit integer; [uuid.UUID] refuses anything else at
    construction, so [uuid_int u < 2^128] for every value the code sees. *)
Record UUID : Type := { uuid_int : N }.

Definition hex_digit (n : N) : ascii :=
  if (n <? 10)%N then ascii_of_N (48 + n) else ascii_of_N (87 + n).

(** The [w] low hexadecimal digits of [v], most significant first. *)
Fixpoint hex_chars (w : nat) (v : N) : list ascii :=
  match w with
  | O => []
  | S w' => hex_chars w' (v / 16) ++ [hex_digit (v mod 16)]
  end.

(** [str(u)]: ['%032x' % int] cut as 8-4-4-4-12. *)
Definition uuid_str (u : UUID) : string :=
  let h := hex_chars 32 (uuid_int u) in
  let hyphen := "-"%char in
  string_of_list_ascii
    (firstn 8 h ++ hyphen :: firstn 4 (skipn 8 h) ++ hyphen ::
     firstn 4 (skipn 12 h) ++ hyphen :: firstn 4 (skipn 16 h) ++ hyphen ::
     skipn 20 h).

(* ================================================================== *)
(** ** datetime.datetime *)

(** A [datetime]: the calendar fields and [tzinfo], which is absent for a
    naive value and otherwise gives [utcoffset()], a [timedelta], here as
    its whole number of microseconds east of UTC. *)
Record datetime : Type := {
  year : N;
  month : N;
  day : N;
  hour : N;
  minute : N;
  second : N;
  microsecond : N;
  tzinfo : option Z
}.

(** The ranges the [datetime] constructor enforces (the day is checked
    against 31 only, the offset is strictly within a day). *)
Definition valid_datetime (t : datetime) : Prop :=
  (1 <= year t <= 9999)%N /\ (1 <= month t <= 12)%N /\ (1 <= day t <= 31)%N /\
  (hour t < 24)%N /\ (minute t < 60)%N /\ (second t < 60)%N /\
  (microsecond t < 1000000)%N /\
  match tzinfo t with
  | Some off => (-86400000000 < off < 86400000000)%Z
  | None => True
  end.

Definition dec_digit (n : N) : ascii := ascii_of_N (48 + n).

(** ['%0wd' % v] for [v < 10^w]: [w] decimal digits, zero padded. *)
Fixpoint dec_chars (w : nat) (v : N) : list ascii :=
  match w with
  | O => []
  | S w' => dec_chars w' (v / 10) ++ [dec_digit (v mod 10)]
  end.

(** [YYYY-MM-DDTHH:MM:SS], then [.ffffff] when there are microseconds. *)
Definition date_time_chars (t : datetime) : list ascii :=
  dec_chars 4 (year t) ++ "-"%char :: dec_chars 2 (month t) ++ "-"%char ::
  dec_chars 2 (day t) ++ "T"%char :: dec_chars 2 (hour t) ++ ":"%char ::
  dec_chars 2 (minute t) ++ ":"%char :: dec_chars 2 (second t) ++
  (if (microsecond t =? 0)%N then []
   else "."%char :: dec_chars 6 (microsecond t)).

(** The offset as [isoformat] writes it: [+HH:MM] or [-HH:MM], then [:SS]
    when the offset is not a whole number of minutes, and [.ffffff] when it
    is not a whole number of seconds. *)
Definition offset_chars (off : Z) : list ascii :=
  let sign := if (off <? 0)%Z then "-"%char else "+"%char in
  let a := Z.to_N (Z.abs off) in
  let hh := (a / 3600000000)%N in
  let mm := (a mod 3600000000 / 60000000)%N in
  let ss := (a mod 3600000000 mod 60000000)%N in
  sign :: dec_chars 2 hh ++ ":"%char :: dec_chars 2 mm ++
  (if (ss =? 0)%N then []
   else ":"%char :: dec_chars 2 (ss / 1000000) ++
        (if (ss mod 1000000 =? 0)%N then []
         else "."%char :: dec_chars 6 (ss mod 1000000))).


(** [t.isoformat()]: the offset is written for an aware value only. *)
Definition isoformat (t : datetime) : string :=
  string_of_list_ascii
    (date_time_chars t ++
     match tzinfo t with
     | Some off => offset_chars off
     | None => []
     end).

(** Whether a timestamp text ends in an explicit numeric offset, [+HH:MM]
    or [-HH:MM]. *)
Definition is_dec_digit (c : ascii) : bool :=
  let n := N_of_ascii c in ((48 <=? n) && (n <=? 57))%N.

Definition has_numeric_offset (s : string) : bool :=
  match rev (list_ascii_of_string s) with
  | m2 :: m1 :: colon :: h2 :: h1 :: sign :: _ =>
      is_dec_digit m2 && is_dec_digit m1 && Ascii.eqb colon ":"%char &&
      is_dec_digit h2 && is_dec_digit h1 &&
      (Ascii.eqb sign "+"%char || Ascii.eqb sign "-"%char)
  | _ => false
  end.

(* ================================================================== *)
(** ** cybsi.api.internal *)

Module Internal.

(** Modelled from the spec: [JsonObjectForm] is not among the sources.  A
    form owns a mutable document, a map from string keys to JSON-compatible
    values, which starts empty. *)
Record JsonObjectForm : Type := { _data : dict }.

Definition JsonObjectForm_init : JsonObjectForm := {| _data := [] |}.

(** Modelled from the spec: the terminal operation [json()] of
    [JsonObjectForm] is not among the sources.  It produces the document for
    transmission, may be called any number of times and reflects the latest
    mutations; the form is returned next to the document. *)
Definition json (self : JsonObjectForm) : JSON * JsonObjectForm :=
  (JObj (_data self), self).

(** Modelled from the spec: [JsonObjectView] is not among the sources.  A
    view is constructed from a single decoded JSON document and never
    mutates it. *)
Record JsonObjectView : Type := { view_data : JSON }.

(** Modelled from the spec: [JsonObjectView._get] is not among the sources.
    A missing required key fails with a [MissingField] error that names the
    field. *)
Definition _get (self : JsonObjectView) (key : string) : result JSON :=
  match view_data self with
  | JObj d =>
      match dict_get key d with
      | Some v => OK v
      | None => Raise (MissingField key)
      end
  | _ => Raise DecodeError
  end.

(** Modelled from the spec: [JsonObjectView._map_list_optional] is not among
    the sources.  An optional field is the explicit absent value when the key
    is missing or null, and otherwise every list element goes through the
    element wrapper, in list order; anything but a list is a malformed
    field. *)
Definition _map_list_optional {V : Type} (self : JsonObjectView)
  (key : string) (converter : JSON -> V) : result (option (list V)) :=
  match view_data self with
  | JObj d =>
      match dict_get key d with
      | None | Some JNull => OK None
      | Some (JArr items) => OK (Some (map converter items))
      | Some _ => Raise DecodeError
      end
  | _ => Raise DecodeError
  end.

(** [+HH:MM] or [-HH:MM], the whole minutes of an offset. *)
Definition numeric_offset_chars (off : Z) : list ascii :=
  let sign := if (off <? 0)%Z then "-"%char else "+"%char in
  let a := Z.to_N (Z.abs off) in
  sign :: dec_chars 2 (a / 3600000000) ++
  ":"%char :: dec_chars 2 (a mod 3600000000 / 60000000).

(** Modelled from the spec: [rfc3339_timestamp] is not among the sources.
    The wire format is RFC 3339 with an explicit numeric offset, as in
    [2021-12-24T17:50:08+03:00].  The spec does not say what a naive value
    or an offset with seconds encodes to; the properties below use the
    text this helper writes as it is and depend on none of it. *)
Definition rfc3339_timestamp (t : datetime) : string :=
  string_of_list_ascii
    (date_time_chars t ++
     numeric_offset_chars
       match tzinfo t with Some off => off | None => 0%Z end).

(** Reading [w] decimal digits. *)
Fixpoint read_dec (w : nat) (acc : N) (s : list ascii)
  : result (N * list ascii) :=
  match w with
  | O => OK (acc, s)
  | S w' =>
      match s with
      | c :: s' =>
          if is_dec_digit c
          then read_dec w' (10 * acc + (N_of_ascii c - 48)) s'
          else Raise ValueError
      | [] => Raise ValueError
      end
  end.

Definition expect (c : ascii) (s : list ascii) : result (list ascii) :=
  match s with
  | c' :: s' => if Ascii.eqb c c' then OK s' else Raise ValueError
  | [] => Raise ValueError
  end.

Definition read_fraction (s : list ascii) : result (N * list ascii) :=
  match s with
  | c :: s' => if Ascii.eqb c "."%char then read_dec 6 0 s' else OK (0%N, s)
  | [] => OK (0%N, s)
  end.

Definition read_sign (s : list ascii) : result (Z * list ascii) :=
  match s with
  | c :: s' =>
      if Ascii.eqb c "+"%char then OK (1%Z, s')
      else if Ascii.eqb c "-"%char then OK ((-1)%Z, s')
      else Raise ValueError
  | [] => Raise ValueError
  end.

(** Modelled from the spec: [parse_rfc3339_timestamp] is not among the
    sources.  It reads the format [rfc3339_timestamp] writes and keeps the
    offset it finds instead of converting the value to UTC; the properties
    below use its result as it is and depend on none of it. *)
Definition parse_rfc3339_timestamp (text : string) : result datetime :=
  let s := list_ascii_of_string text in
  '(y, s) <- read_dec 4 0 s ;;
  s <- expect "-"%char s ;;
  '(mo, s) <- read_dec 2 0 s ;;
  s <- expect "-"%char s ;;
  '(d, s) <- read_dec 2 0 s ;;
  s <- expect "T"%char s ;;
  '(h, s) <- read_dec 2 0 s ;;
  s <- expect ":"%char s ;;
  '(mi, s) <- read_dec 2 0 s ;;
  s <- expect ":"%char s ;;
  '(sec, s) <- read_dec 2 0 s ;;
  '(us, s) <- read_fraction s ;;
  '(sign, s) <- read_sign s ;;
  '(oh, s) <- read_dec 2 0 s ;;
  s <- expect ":"%char s ;;
  '(om, s) <- read_dec 2 0 s ;;
  match s with
  | [] =>
      OK {| year := y; month := mo; day := d; hour := h; minute := mi;
            second := sec; microsecond := us;
            tzinfo := Some (sign * Z.of_N (60 * oh + om) * 60000000)%Z |}
  | _ :: _ => Raise ValueError
  end.

End Internal.

(* ================================================================== *)
(** ** The HTTP collaborator *)

Module Connector.

Inductive http_method : Type := GET | POST.

Record request : Type := {
  req_method : http_method;
  req_path : string;
  req_params : dict;
  req_json : option JSON
}.

(** Modelled from the spec: the connector behind [BaseAPI._connector] is
    not among the sources.  It performs one synchronous call per [do_get] or
    [do_post] and hands back the decoded response body, or fails.  [sent] is
    the record of the calls made so far; [respond] is the other side, which
    may depend on them. *)
Record connector : Type := {
  sent : list request;
  respond : list request -> request -> result JSON
}.

Definition perform (c : connector) (rq : request) : result JSON * connector :=
  (respond c (sent c) rq, {| sent := sent c ++ [rq]; respond := respond c |}).

Definition do_get (c : connector) (path : string) (params : dict)
  : result JSON * connector :=
  perform c {| req_method := GET; req_path := path; req_params := params;
               req_json := None |}.

Definition do_post (c : connector) (path : string) (json : JSON)
  : result JSON * connector :=
  perform c {| req_method := POST; req_path := path; req_params := [];
               req_json := Some json |}.

End Connector.

(* ================================================================== *)
(** ** cybsi.api.observable: what the forms and endpoints use of it *)

Module Observable.
Import Internal.

(** Modelled from the spec: the declarations of the enumerations
    [ShareLevels], [AttributeNames] and [RelationshipKinds] are not among
    the sources.  A member is represented by its wire value, the only thing
    the forms read of it ([.value]). *)
Record ShareLevels : Type := { ShareLevels_value : string }.
Record AttributeNames : Type := { AttributeNames_value : string }.
Record RelationshipKinds : Type := { RelationshipKinds_value : string }.

(** Modelled from the spec: [EntityForm] is not among the sources.  It is a
    form like any other: a document, serialized by [json()]. *)
Definition EntityForm : Type := JsonObjectForm.

(** Modelled from the spec: [EntityView], [ValuableFactView] and [RefView]
    are not among the sources.  Each wraps one decoded document. *)
Definition EntityView : Type := JsonObjectView.
Definition ValuableFactView : Type := JsonObjectView.
Definition RefView : Type := JsonObjectView.

Definition EntityView_init (data : JSON) : EntityView :=
  {| view_data := data |}.
Definition ValuableFactView_init (data : JSON) : ValuableFactView :=
  {| view_data := data |}.
Definition RefView_init (data : JSON) : RefView :=
  {| view_data := data |}.

(** [Union[uuid.UUID, EntityForm]], told apart by [isinstance]. *)
Inductive entity_ref : Type :=
| ByUUID (u : UUID)
| ByForm (e : EntityForm).

End Observable.

(* ================================================================== *)
(** ** cybsi/api/observation/generic.py *)

Module Generic.
Import Internal Connector Observable.

Definition _path : string := "/enrichment/observations/generics".

(** *** GenericObservationForm *)

Definition GenericObservationForm : Type := JsonObjectForm.

Definition store (self : GenericObservationForm) (k : string) (v : JSON)
  : GenericObservationForm :=
  {| _data := dict_set k v (_data self) |}.

Definition GenericObservationForm_init (share_level : ShareLevels)
  (seen_at : datetime) : GenericObservationForm :=
  let self := JsonObjectForm_init in
  let self := store self "shareLevel" (JStr (ShareLevels_value share_level)) in
  let self := store self "seenAt" (JStr (rfc3339_timestamp seen_at)) in
  self.

(** The [_content] property: [self._data.setdefault("content", {})]. *)
Definition _content (self : GenericObservationForm)
  : JSON * GenericObservationForm :=
  let (content, d) := dict_setdefault "content" (JObj []) (_data self) in
  (content, {| _data := d |}).

Definition set_data_source (self : GenericObservationForm)
  (source_uuid : UUID) : GenericObservationForm :=
  store self "dataSourceUUID" (JStr (uuid_str source_uuid)).

(** The entity of a fact record: [{"uuid": str(entity)}] for a UUID,
    [entity.json()] for a form.  The entity form is read when the fact is
    added; what the caller does to that form afterwards is outside the
    model. *)
Definition entity_json (entity : entity_ref) : JSON :=
  match entity with
  | ByUUID u => JObj [("uuid", JStr (uuid_str u))]
  | ByForm e => fst (json e)
  end.

Definition confidence_json (confidence : option float) : JSON :=
  match confidence with
  | Some x => JFloat x
  | None => JNull
  end.

Definition attribute_fact (entity : entity_ref)
  (attribute_name : AttributeNames) (value : JSON)
  (confidence : option float) : JSON :=
  JObj [("entity", entity_json entity);
        ("attributeName", JStr (AttributeNames_value attribute_name));
        ("value", value);
        ("confidence", confidence_json confidence)].

Definition relationship_fact (source : entity_ref) (kind : RelationshipKinds)
  (target : entity_ref) (confidence : option float) : JSON :=
  JObj [("source", entity_json source);
        ("kind", JStr (RelationshipKinds_value kind));
        ("target", entity_json target);
        ("confidence", confidence_json confidence)].

(** The list reached through [self._content.setdefault(key, [])] is
    appended to in place: the model stores the longer list back under its
    key of the content object, and that under ["content"] of the document. *)
Definition add_attribute_fact (self : GenericObservationForm)
  (entity : entity_ref) (attribute_name : AttributeNames) (value : JSON)
  (confidence : option float) : result GenericObservationForm :=
  let (content, self) := _content self in
  '(attribute_facts, content) <-
    obj_setdefault content "entityAttributeValues" (JArr []) ;;
  let ent :=
    match entity with
    | ByUUID u => JObj [("uuid", JStr (uuid_str u))]
    | ByForm e => fst (json e)
    end in
  attribute_facts <-
    list_append attribute_facts
      (JObj [("entity", ent);
             ("attributeName", JStr (AttributeNames_value attribute_name));
             ("value", value);
             ("confidence", confidence_json confidence)]) ;;
  content <- obj_store content "entityAttributeValues" attribute_facts ;;
  OK (store self "content" content).

Definition add_entity_relationship (self : GenericObservationForm)
  (source : entity_ref) (kind : RelationshipKinds) (target : entity_ref)
  (confidence : option float) : result GenericObservationForm :=
  let (content, self) := _content self in
  '(entity_relationship, content) <-
    obj_setdefault content "entityRelationships" (JArr []) ;;
  let source_ent :=
    match source with
    | ByUUID u => JObj [("uuid", JStr (uuid_str u))]
    | ByForm e => fst (json e)
    end in
  let target_ent :=
    match target with
    | ByUUID u => JObj [("uuid", JStr (uuid_str u))]
    | ByForm e => fst (json e)
    end in
  entity_relationship <-
    list_append entity_relationship
      (JObj [("source", source_ent);
             ("kind", JStr (RelationshipKinds_value kind));
             ("target", target_ent);
             ("confidence", confidence_json confidence)]) ;;
  content <- obj_store content "entityRelationships" entity_relationship ;;
  OK (store self "content" content).

(** What the two methods have in common, for the proofs: appending [fact]
    to the list under [key] of the content object. *)
Definition append_fact (self : GenericObservationForm) (key : string)
  (fact : JSON) : result GenericObservationForm :=
  let (content, self) := _content self in
  '(facts, content) <- obj_setdefault content key (JArr []) ;;
  facts <- list_append facts fact ;;
  content <- obj_store content key facts ;;
  OK (store self "content" content).

(** A builder call, and a chain of them on one form. *)
Inductive call : Type :=
| SetDataSource (source_uuid : UUID)
| AddAttributeFact (entity : entity_ref) (attribute_name : AttributeNames)
    (value : JSON) (confidence : option float)
| AddEntityRelationship (source : entity_ref) (kind : RelationshipKinds)
    (target : entity_ref) (confidence : option float).

Definition apply_call (self : GenericObservationForm) (c : call)
  : result GenericObservationForm :=
  match c with
  | SetDataSource u => OK (set_data_source self u)
  | AddAttributeFact e a v c => add_attribute_fact self e a v c
  | AddEntityRelationship s k t c => add_entity_relationship self s k t c
  end.

Fixpoint apply_calls (self : GenericObservationForm) (cs : list call)
  : result GenericObservationForm :=
  match cs with
  | [] => OK self
  | c :: cs' => self' <- apply_call self c ;; apply_calls self' cs'
  end.

(** The records the attribute calls, and the relationship calls, of a chain
    ask to append, in call order. *)
Fixpoint attribute_facts_of (cs : list call) : list JSON :=
  match cs with
  | [] => []
  | AddAttributeFact e a v c :: cs' =>
      attribute_fact e a v c :: attribute_facts_of cs'
  | _ :: cs' => attribute_facts_of cs'
  end.

Fixpoint relationship_facts_of (cs : list call) : list JSON :=
  match cs with
  | [] => []
  | AddEntityRelationship s k t c :: cs' =>
      relationship_fact s k t c :: relationship_facts_of cs'
  | _ :: cs' => relationship_facts_of cs'
  end.

Definition is_add (c : call) : bool :=
  match c with
  | SetDataSource _ => false
  | _ => true
  end.

(** Reading a serialized document: the value under [key] of the object
    under ["content"]. *)
Definition content_entry (doc : JSON) (key : string) : option JSON :=
  match doc with
  | JObj d =>
      match dict_get "content" d with
      | Some (JObj content) => dict_get key content
      | _ => None
      end
  | _ => None
  end.

Definition top_entry (doc : JSON) (key : string) : option JSON :=
  match doc with
  | JObj d => dict_get key d
  | _ => None
  end.

(** What a list of fact records looks like under its key: the key is
    missing until the first record is appended. *)
Definition facts_entry (facts : list JSON) : option JSON :=
  match facts with
  | [] => None
  | _ :: _ => Some (JArr facts)
  end.

(** The last record of the list under [key] of the content object. *)
Definition last_fact (doc : JSON) (key : string) : option JSON :=
  match content_entry doc key with
  | Some (JArr facts) => nth_error facts (length facts - 1)
  | _ => None
  end.

(** The state of a form's document that has received the attribute facts
    [attrs] and the relationship facts [rels]: no content object before the
    first fact, and afterwards one that holds exactly the two lists. *)
Definition content_state (d : dict) (attrs rels : list JSON) : Prop :=
  match dict_get "content" d with
  | None => attrs = [] /\ rels = []
  | Some (JObj content) =>
      dict_get "entityAttributeValues" content = facts_entry attrs /\
      dict_get "entityRelationships" content = facts_entry rels /\
      (attrs <> [] \/ rels <> [])
  | Some _ => False
  end.

(** The content object of a document and the list under one of its keys,
    empty when there is none yet; [appendable] says that what is stored
    there, if anything, is an object holding a list. *)
Definition content_dict (d : dict) : dict :=
  match dict_get "content" d with
  | Some (JObj content) => content
  | _ => []
  end.

Definition facts_under (key : string) (content : dict) : list JSON :=
  match dict_get key content with
  | Some (JArr facts) => facts
  | _ => []
  end.

Definition appendable (key : string) (d : dict) : Prop :=
  match dict_get "content" d with
  | None => True
  | Some (JObj content) =>
      match dict_get key content with
      | None | Some (JArr _) => True
      | Some _ => False
      end
  | Some _ => False
  end.

(** *** GenericObservationsAPI *)

Definition register (c : connector) (observation : GenericObservationForm)
  : result RefView * connector * GenericObservationForm :=
  let (body, observation) := json observation in
  let (r, c) := do_post c _path body in
  (r <- r ;; OK (RefView_init r), c, observation).

(** *** GenericObservationView and GenericObservationContentView *)

Definition GenericObservationView : Type := JsonObjectView.
Definition GenericObservationContentView : Type := JsonObjectView.
Definition RelationshipView : Type := JsonObjectView.
Definition AttributeValueView : Type := JsonObjectView.

Definition GenericObservationView_init (data : JSON)
  : GenericObservationView := {| view_data := data |}.
Definition GenericObservationContentView_init (data : JSON)
  : GenericObservationContentView := {| view_data := data |}.
Definition RelationshipView_init (data : JSON) : RelationshipView :=
  {| view_data := data |}.
Definition AttributeValueView_init (data : JSON) : AttributeValueView :=
  {| view_data := data |}.

Definition view (c : connector) (observation_uuid : UUID)
  : result GenericObservationView * connector :=
  let path := (_path ++ "/" ++ uuid_str observation_uuid)%string in
  let (r, c) := do_get c path [] in
  (r <- r ;; OK (GenericObservationView_init r), c).

(** A timestamp field is decoded from the string under its key; anything
    but a string is not a timestamp text. *)
Definition decode_timestamp (v : JSON) : result datetime :=
  match v with
  | JStr s => parse_rfc3339_timestamp s
  | _ => Raise TypeError
  end.

Definition seen_at (self : GenericObservationView) : result datetime :=
  v <- _get self "seenAt" ;; decode_timestamp v.

Definition registered_at (self : GenericObservationView) : result datetime :=
  v <- _get self "registeredAt" ;; decode_timestamp v.

Definition content (self : GenericObservationView)
  : result GenericObservationContentView :=
  v <- _get self "content" ;; OK (GenericObservationContentView_init v).

Definition entity_relationships (self : GenericObservationContentView)
  : result (list RelationshipView) :=
  relationships <- _get self "entityRelationships" ;;
  xs <- py_iter relationships ;;
  OK (map RelationshipView_init xs).

Definition entity_attribute_values (self : GenericObservationContentView)
  : result (list AttributeValueView) :=
  attributes <- _get self "entityAttributeValues" ;;
  xs <- py_iter attributes ;;
  OK (map AttributeValueView_init xs).

End Generic.

(* ================================================================== *)
(** ** cybsi/api/observable/relationships.py *)

Module Relationships.
Import Internal Connector Observable.

Definition _path : string := "/observable/relationships".

Definition RelationshipsForecastView : Type := JsonObjectView.
Definition RelationshipView : Type := JsonObjectView.

Definition RelationshipsForecastView_init (data : JSON)
  : RelationshipsForecastView := {| view_data := data |}.
Definition RelationshipView_init (data : JSON) : RelationshipView :=
  {| view_data := data |}.

Section RelationshipsAPI.

(** Modelled from the spec: [cybsi.utils.converters] is not among the
    sources.  [convert_relationship_kind_kebab] is a pure, total function
    from relationship kinds to URL path segments; it is a parameter here. *)
Variable convert_relationship_kind_kebab : RelationshipKinds -> string.

Definition forecast (c : connector) (source_entity_uuid : UUID)
  (target_entity_uuid : UUID) (kind : RelationshipKinds)
  (forecast_at : option datetime) (valuable_facts : option bool)
  : result RelationshipsForecastView * connector :=
  let kebab_kind := convert_relationship_kind_kebab kind in
  let path :=
    (_path ++ "/" ++ uuid_str source_entity_uuid ++ "/" ++ kebab_kind ++
     "/" ++ uuid_str target_entity_uuid)%string in
  let params : dict := [] in
  let params :=
    match forecast_at with
    | Some t => dict_set "forecastAt" (JStr (rfc3339_timestamp t)) params
    | None => params
    end in
  let params :=
    match valuable_facts with
    | Some b => dict_set "valuableFacts" (JBool b) params
    | None => params
    end in
  let (r, c) := do_get c path params in
  (r <- r ;; OK (RelationshipsForecastView_init r), c).

End RelationshipsAPI.

Definition relationship (self : RelationshipsForecastView)
  : result RelationshipView :=
  v <- _get self "relationship" ;; OK (RelationshipView_init v).

Definition confidence (self : RelationshipsForecastView) : result JSON :=
  _get self "confidence".

Definition valuable_facts (self : RelationshipsForecastView)
  : result (option (list ValuableFactView)) :=
  _map_list_optional self "valuableFacts" ValuableFactView_init.

Definition source (self : RelationshipView) : result EntityView :=
  v <- _get self "source" ;; OK (EntityView_init v).

Definition target (self : RelationshipView) : result EntityView :=
  v <- _get self "target" ;; OK (EntityView_init v).

End Relationships.

(* ================================================================== *)
(** ** cybsi_sdk/client/observations/generic.py *)

Module Legacy.
Import Internal Observable.

(** Modelled from the spec: [cybsi_sdk.client.base] is not among the
    sources; its [JsonObjectForm] and [JsonObjectView] are taken to be the
    ones of [Internal]. *)
Definition GenericObservationForm : Type := JsonObjectForm.

Definition store (self : GenericObservationForm) (k : string) (v : JSON)
  : GenericObservationForm :=
  {| _data := dict_set k v (_data self) |}.

Definition GenericObservationForm_init (share_level : ShareLevels)
  (seen_at : datetime) : GenericObservationForm :=
  let self := JsonObjectForm_init in
  let self := store self "shareLevel" (JStr (ShareLevels_value share_level)) in
  let self := store self "seenAt" (JStr (isoformat seen_at)) in
  self.

Definition _content (self : GenericObservationForm)
  : JSON * GenericObservationForm :=
  let (content, d) := dict_setdefault "content" (JObj []) (_data self) in
  (content, {| _data := d |}).

Definition set_data_source (self : GenericObservationForm)
  (source_uuid : UUID) : GenericObservationForm :=
  store self "dataSourceUUID" (JStr (uuid_str source_uuid)).

Definition add_attribute_fact (self : GenericObservationForm)
  (entity : EntityForm) (attribute_name : AttributeNames) (value : JSON)
  (confidence : option float) : result GenericObservationForm :=
  let (content, self) := _content self in
  '(attribute_facts, content) <-
    obj_setdefault content "entityAttributeValues" (JArr []) ;;
  attribute_facts <-
    list_append attribute_facts
      (JObj [("entity", fst (json entity));
             ("attributeName", JStr (AttributeNames_value attribute_name));
             ("value", value);
             ("confidence",
              match confidence with Some x => JFloat x | None => JNull end)]) ;;
  content <- obj_store content "entityAttributeValues" attribute_facts ;;
  OK (store self "content" content).

(** *** Views *)

Definition GenericObservationView : Type := JsonObjectView.

Definition GenericObservationView_init (data : JSON)
  : GenericObservationView := {| view_data := data |}.

(** The content and fact views subclass [dict]: constructing one copies the
    dictionary it is given.  [dict(x)] raises for a value that is neither a
    dictionary nor a sequence of key and value pairs; such sequences are no
    part of a response document and raise here as well. *)
Definition dict_of (x : JSON) : result dict :=
  match x with
  | JObj d => OK d
  | _ => Raise TypeError
  end.

Definition _ContentView : Type := dict.
Definition _RelationshipView : Type := dict.
Definition _AttributeValueView : Type := dict.

Definition _ContentView_init (x : JSON) : result _ContentView := dict_of x.
Definition _RelationshipView_init (x : JSON) : result _RelationshipView :=
  dict_of x.
Definition _AttributeValueView_init (x : JSON) : result _AttributeValueView :=
  dict_of x.

Definition seen_at (self : GenericObservationView) : result JSON :=
  _get self "seenAt".

Definition registered_at (self : GenericObservationView) : result JSON :=
  _get self "registeredAt".

Definition content (self : GenericObservationView) : result _ContentView :=
  v <- _get self "content" ;; _ContentView_init v.

Definition expires_at (self : _ContentView) : JSON :=
  dict_get_default "expiresAt" JNull self.

Definition entity_relationships (self : _ContentView)
  : result (list _RelationshipView) :=
  let relationships := dict_get_default "entityRelationships" (JArr []) self in
  xs <- py_iter relationships ;;
  mapM _RelationshipView_init xs.

Definition entity_attribute_values (self : _ContentView)
  : result (list _AttributeValueView) :=
  let attributes := dict_get_default "entityAttributeValues" (JArr []) self in
  xs <- py_iter attributes ;;
  mapM _AttributeValueView_init xs.

Definition reporter (self : GenericObservationView) : result RefView :=
  v <- _get self "reporter" ;; OK (RefView_init v).

Definition data_source (self : GenericObservationView) : result RefView :=
  v <- _get self "dataSource" ;; OK (RefView_init v).

(** The properties of [_RelationshipView] that need no enumeration:
    [self.get(key)], which is [None] for a missing key. *)
Module RelationshipViewProperties.

Definition source (self : _RelationshipView) : JSON :=
  dict_get_default "source" JNull self.

Definition target (self : _RelationshipView) : JSON :=
  dict_get_default "target" JNull self.

Definition confidence (self : _RelationshipView) : JSON :=
  dict_get_default "confidence" JNull self.

End RelationshipViewProperties.

(** The properties of [_AttributeValueView]. *)
Module AttributeValueViewProperties.

Definition entity (self : _AttributeValueView) : JSON :=
  dict_get_default "entity" JNull self.

Definition attribute_name (self : _AttributeValueView) : JSON :=
  dict_get_default "attributeName" JNull self.

Definition value (self : _AttributeValueView) : JSON :=
  dict_get_default "value" JNull self.

Definition confidence (self : _AttributeValueView) : JSON :=
  dict_get_default "confidence" JNull self.

End AttributeValueViewProperties.

(** A builder call of the legacy form, a chain of them on one form, and the
    same call on the newer form. *)
Inductive call : Type :=
| SetDataSource (source_uuid : UUID)
| AddAttributeFact (entity : EntityForm) (attribute_name : AttributeNames)
    (value : JSON) (confidence : option float).

Definition apply_call (self : GenericObservationForm) (c : call)
  : result GenericObservationForm :=
  match c with
  | SetDataSource u => OK (set_data_source self u)
  | AddAttributeFact e a v c => add_attribute_fact self e a v c
  end.

Fixpoint apply_calls (self : GenericObservationForm) (cs : list call)
  : result GenericObservationForm :=
  match cs with
  | [] => OK self
  | c :: cs' => self' <- apply_call self c ;; apply_calls self' cs'
  end.

Definition newer_call (c : call) : Generic.call :=
  match c with
  | SetDataSource u => Generic.SetDataSource u
  | AddAttributeFact e a v c => Generic.AddAttributeFact (ByForm e) a v c
  end.

(** The fields of the record [add_attribute_fact] appends. *)
Definition attribute_fact_fields (entity : EntityForm)
  (attribute_name : AttributeNames) (value : JSON)
  (confidence : option float) : dict :=
  [("entity", fst (json entity));
   ("attributeName", JStr (AttributeNames_value attribute_name));
   ("value", value);
   ("confidence",
    match confidence with Some x => JFloat x | None => JNull end)].

Fixpoint attribute_fields_of (cs : list call) : list dict :=
  match cs with
  | [] => []
  | AddAttributeFact e a v c :: cs' =>
      attribute_fact_fields e a v c :: attribute_fields_of cs'
  | _ :: cs' => attribute_fields_of cs'
  end.

End Legacy.

(* ================================================================== *)
(** ** Sample values *)

Module Sample.
Import Internal Observable.

(** [ShareLevels.Green], [AttributeNames.IsIoC] and
    [RelationshipKinds.ResolvesTo], as the examples of the repository use
    them and as they appear on the wire. *)
Definition Green : ShareLevels := {| ShareLevels_value := "Green" |}.
Definition IsIoC : AttributeNames := {| AttributeNames_value := "IsIoC" |}.
Definition ResolvesTo : RelationshipKinds :=
  {| RelationshipKinds_value := "ResolvesTo" |}.

(** [datetime(2021, 12, 24, 17, 50, 8)], naive. *)
Definition naive_time : datetime :=
  {| year := 2021; month := 12; day := 24; hour := 17; minute := 50;
     second := 8; microsecond := 0; tzinfo := None |}.

(** The same wall clock time three hours east of UTC, the instant written
    [2021-12-24T17:50:08+03:00] in the forecast example. *)
Definition moscow_time : datetime :=
  {| year := 2021; month := 12; day := 24; hour := 17; minute := 50;
     second := 8; microsecond := 0; tzinfo := Some 10800000000%Z |}.

(** [datetime(1936, 6, 1, 12, 0, 0)] on Amsterdam's local mean time of
    then, 19 minutes and 32 seconds east of UTC. *)
Definition amsterdam_time : datetime :=
  {| year := 1936; month := 6; day := 1; hour := 12; minute := 0;
     second := 0; microsecond := 0; tzinfo := Some 1172000000%Z |}.

(** [UUID("3a53cc35-f632-434c-bd4b-1ed8c014003a")] of the docstring of
    [forecast]. *)
Definition entity_uuid : UUID :=
  {| uuid_int := 0x3a53cc35f632434cbd4b1ed8c014003a |}.

(** [EntityForm(EntityTypes.DomainName)] with the key ["test.com"]. *)
Definition domain : EntityForm :=
  {| _data := [("type", JStr "DomainName");
               ("keys", JArr [JObj [("type", JStr "String");
                                    ("value", JStr "test.com")]])] |}.

End Sample.

(* ================================================================== *)
(** ** cybsi/api/observation/generic.py: the other view properties *)

Module GenericViews.
Import Internal Observable.

Definition reporter (self : Generic.GenericObservationView)
  : result RefView :=
  v <- _get self "reporter" ;; OK (RefView_init v).

Definition data_source (self : Generic.GenericObservationView)
  : result RefView :=
  v <- _get self "dataSource" ;; OK (RefView_init v).

(** [RelationshipView.source] and [.target]. *)
Module RelationshipView.

Definition source (self : Generic.RelationshipView) : result EntityView :=
  v <- _get self "source" ;; OK (EntityView_init v).

Definition target (self : Generic.RelationshipView) : result EntityView :=
  v <- _get self "target" ;; OK (EntityView_init v).

End RelationshipView.

(** [AttributeValueView.entity] and [.value]. *)
Module AttributeValueView.

Definition entity (self : Generic.AttributeValueView) : result EntityView :=
  v <- _get self "entity" ;; OK (EntityView_init v).

Definition value (self : Generic.AttributeValueView) : result JSON :=
  _get self "value".

End AttributeValueView.

End GenericViews.

(* ================================================================== *)
(** ** Reading chains of builder calls *)

Module FormChains.

(** The UUID of the last [set_data_source] call of a chain, if any. *)
Fixpoint last_data_source (cs : list Generic.call) : option UUID :=
  match cs with
  | [] => None
  | Generic.SetDataSource u :: cs' =>
      match last_data_source cs' with
      | Some u' => Some u'
      | None => Some u
      end
  | _ :: cs' => last_data_source cs'
  end.

Definition has_key (k : string) (ks : list string) : bool :=
  existsb (String.eqb k) ks.

(** The keys of a dictionary after [d[k] = v]. *)
Definition with_key (k : string) (ks : list string) : list string :=
  if has_key k ks then ks else ks ++ [k].

(** What the keys of a form's document look like. *)
Definition tidy_keys (d : dict) : Prop :=
  NoDup (dict_keys d) /\
  (exists rest,
     dict_keys d = "shareLevel" :: "seenAt" :: rest /\
     incl rest ["dataSourceUUID"; "content"]) /\
  NoDup (dict_keys (Generic.content_dict d)) /\
  incl (dict_keys (Generic.content_dict d))
    ["entityAttributeValues"; "entityRelationships"].

(** The content object after one append, from the value stored under
    ["content"] before it, if any. *)
Definition new_content (stored : option JSON) (key : string) (fact : JSON)
  : result JSON :=
  let content := match stored with Some v => v | None => JObj [] end in
  '(facts, content) <- obj_setdefault content key (JArr []) ;;
  facts <- list_append facts fact ;;
  obj_store content key facts.

(** The keys of a record, in order, and whether a value is an object. *)
Definition record_keys (r : JSON) : option (list string) :=
  match r with
  | JObj d => Some (dict_keys d)
  | _ => None
  end.

Definition is_object (v : option JSON) : bool :=
  match v with
  | Some (JObj _) => true
  | _ => false
  end.

Definition attribute_record (r : JSON) : Prop :=
  record_keys r = Some ["entity"; "attributeName"; "value"; "confidence"] /\
  is_object (Generic.top_entry r "entity") = true.

Definition relationship_record (r : JSON) : Prop :=
  record_keys r = Some ["source"; "kind"; "target"; "confidence"] /\
  is_object (Generic.top_entry r "source") = true /\
  is_object (Generic.top_entry r "target") = true.

End FormChains.

(* ================================================================== *)
(** ** Reading requests *)

Module Requests.
Import Connector.

(** The path of the request a connector sent last. *)
Definition last_path (c : connector) : option string :=
  match rev (sent c) with
  | rq :: _ => Some (req_path rq)
  | [] => None
  end.

(** The characters of [str(u)], and the hexadecimal digits among the
    characters of such a text. *)
Definition uuid_chars (u : UUID) : list ascii :=
  list_ascii_of_string (uuid_str u).

Definition unhyphen (l : list ascii) : list ascii :=
  firstn 8 l ++ firstn 4 (skipn 9 l) ++ firstn 4 (skipn 14 l) ++
  firstn 4 (skipn 19 l) ++ skipn 24 l.

End Requests.

(* ================================================================== *)
(** ** cybsi/api/observation/enums.py *)

Module ObservationEnums.

Inductive ObservationTypes : Type :=
| DNSLookup
| WhoisLookup
| NetworkSession
| ScanSession
| Threat
| Generic.

Definition name (m : ObservationTypes) : string :=
  match m with
  | DNSLookup => "DNSLookup"
  | WhoisLookup => "WhoisLookup"
  | NetworkSession => "NetworkSession"
  | ScanSession => "ScanSession"
  | Threat => "Threat"
  | Generic => "Generic"
  end.

Definition value (m : ObservationTypes) : string :=
  match m with
  | DNSLookup => "DNSLookup"
  | WhoisLookup => "WhoisLookup"
  | NetworkSession => "NetworkSession"
  | ScanSession => "ScanSession"
  | Threat => "Threat"
  | Generic => "Generic"
  end.

(** The members in definition order. *)
Definition members : list ObservationTypes :=
  [DNSLookup; WhoisLookup; NetworkSession; ScanSession; Threat; Generic].

(** [ObservationTypes(v)]: the first member whose value equals [v], and
    [ValueError] when there is none. *)
Definition ObservationTypes_of_value (v : JSON) : result ObservationTypes :=
  match v with
  | JStr s =>
      match find (fun m => String.eqb (value m) s) members with
      | Some m => OK m
      | None => Raise ValueError
      end
  | _ => Raise ValueError
  end.

End ObservationEnums.

(* ================================================================== *)
(** * Properties *)

Import Internal Connector Observable Generic.

(** ** Dictionaries *)

Lemma dict_get_set_same (k : string) (v : JSON) (d : dict) :
  dict_get k (dict_set k v d) = Some v.
Proof.
  induction d as [|[k' v'] d IH]; simpl.
  - now rewrite String.eqb_refl.
  - destruct (String.eqb k k') eqn:E; simpl; rewrite E; auto.
Qed.

Lemma dict_get_set_other (k k' : string) (v : JSON) (d : dict) :
  k <> k' -> dict_get k' (dict_set k v d) = dict_get k' d.
Proof.
  intros Hne. induction d as [|[k0 v0] d IH]; simpl.
  - destruct (String.eqb_spec k' k); congruence.
  - destruct (String.eqb_spec k k0) as [->|Hk]; simpl.
    + destruct (String.eqb_spec k' k0); congruence.
    + now rewrite IH.
Qed.

Lemma dict_setdefault_missing (k : string) (v : JSON) (d : dict) :
  dict_get k d = None -> dict_setdefault k v d = (v, dict_set k v d).
Proof. unfold dict_setdefault. now intros ->. Qed.

Lemma dict_setdefault_present (k : string) (v x : JSON) (d : dict) :
  dict_get k d = Some x -> dict_setdefault k v d = (x, d).
Proof. unfold dict_setdefault. now intros ->. Qed.

Lemma facts_entry_snoc (facts : list JSON) (x : JSON) :
  facts_entry (facts ++ [x]) = Some (JArr (facts ++ [x])).
Proof. destruct facts; reflexivity. Qed.

(** ** The two add methods are one append *)

Lemma add_attribute_fact_append self entity attribute_name value confidence :
  add_attribute_fact self entity attribute_name value confidence
  = append_fact self "entityAttributeValues"
      (attribute_fact entity attribute_name value confidence).
Proof. reflexivity. Qed.

Lemma add_entity_relationship_append self source kind target confidence :
  add_entity_relationship self source kind target confidence
  = append_fact self "entityRelationships"
      (relationship_fact source kind target confidence).
Proof. reflexivity. Qed.

(** One append: the list under [key] grows by [fact] at its end, the other
    entries of the content object and of the document stay as they were. *)
Lemma append_fact_spec (self : GenericObservationForm) (key : string)
  (fact : JSON) :
  appendable key (_data self) ->
  exists self' content',
    append_fact self key fact = OK self' /\
    dict_get "content" (_data self') = Some (JObj content') /\
    dict_get key content'
    = Some (JArr (facts_under key (content_dict (_data self)) ++ [fact])) /\
    (forall k, k <> key ->
       dict_get k content' = dict_get k (content_dict (_data self))) /\
    (forall k, k <> "content" ->
       dict_get k (_data self') = dict_get k (_data self)).
Proof.
  destruct self as [d]. unfold appendable, append_fact, _content, content_dict.
  cbn [_data]. destruct (dict_get "content" d) as [v|] eqn:Hc.
  - destruct v as [| | | | |?|content]; try contradiction.
    rewrite (dict_setdefault_present _ _ _ _ Hc). unfold facts_under.
    cbn [obj_setdefault]. unfold dict_setdefault.
    destruct (dict_get key content) as [w|] eqn:Hk.
    + destruct w as [| | | | |facts|?]; try contradiction. intros _.
      cbn [bind list_append obj_store]. unfold store. cbn [_data].
      eexists _, _. split; [reflexivity|]. cbn [_data].
      rewrite dict_get_set_same. split; [reflexivity|].
      rewrite dict_get_set_same. split; [reflexivity|].
      split; intros k Hne; apply dict_get_set_other; congruence.
    + intros _. cbn [bind list_append obj_store app]. unfold store.
      eexists _, _. split; [reflexivity|]. cbn [_data].
      rewrite dict_get_set_same. split; [reflexivity|].
      rewrite dict_get_set_same. split; [reflexivity|].
      split; intros k Hne.
      * rewrite !dict_get_set_other by congruence. reflexivity.
      * apply dict_get_set_other; congruence.
  - intros _. rewrite (dict_setdefault_missing _ _ _ Hc).
    cbn [obj_setdefault]. unfold dict_setdefault, facts_under.
    cbn [dict_get dict_set bind list_append obj_store app]. unfold store.
    rewrite String.eqb_refl.
    eexists _, _. split; [reflexivity|]. cbn [_data].
    rewrite dict_get_set_same. split; [reflexivity|].
    cbn [dict_get]. rewrite String.eqb_refl. split; [reflexivity|].
    split; intros k Hne.
    + destruct (String.eqb_spec k key); congruence.
    + rewrite !dict_get_set_other by congruence. reflexivity.
Qed.

Lemma content_state_appendable (d : dict) (attrs rels : list JSON) :
  content_state d attrs rels ->
  appendable "entityAttributeValues" d /\ appendable "entityRelationships" d.
Proof.
  unfold content_state, appendable.
  destruct (dict_get "content" d) as [[| | | | | |content]|]; try tauto.
  intros (-> & -> & _). now destruct attrs, rels.
Qed.

Lemma facts_under_entry (key : string) (content : dict) (facts : list JSON) :
  dict_get key content = facts_entry facts ->
  facts_under key content = facts.
Proof. unfold facts_under. intros ->. now destruct facts. Qed.

Lemma content_state_add_attribute (self : GenericObservationForm)
  (attrs rels : list JSON) (fact : JSON) :
  content_state (_data self) attrs rels ->
  exists self',
    append_fact self "entityAttributeValues" fact = OK self' /\
    content_state (_data self') (attrs ++ [fact]) rels /\
    (forall k, k <> "content" ->
       dict_get k (_data self') = dict_get k (_data self)).
Proof.
  intros Hst. destruct (content_state_appendable _ _ _ Hst) as [Ha _].
  destruct (append_fact_spec self _ fact Ha)
    as (self' & content' & Hrun & Hc & Hk & Hother & Hframe).
  exists self'. split; [exact Hrun|]. split; [|exact Hframe].
  unfold content_state in *. rewrite Hc. unfold content_dict in *.
  destruct (dict_get "content" (_data self)) as [[| | | | | |content]|];
    try contradiction.
  - destruct Hst as (Hattrs & Hrels & _).
    rewrite Hk, (facts_under_entry _ _ _ Hattrs), facts_entry_snoc.
    rewrite Hother, Hrels by discriminate.
    repeat split. left. now destruct attrs.
  - destruct Hst as [-> ->]. rewrite Hk, Hother by discriminate.
    repeat split. left. discriminate.
Qed.

Lemma content_state_add_relationship (self : GenericObservationForm)
  (attrs rels : list JSON) (fact : JSON) :
  content_state (_data self) attrs rels ->
  exists self',
    append_fact self "entityRelationships" fact = OK self' /\
    content_state (_data self') attrs (rels ++ [fact]) /\
    (forall k, k <> "content" ->
       dict_get k (_data self') = dict_get k (_data self)).
Proof.
  intros Hst. destruct (content_state_appendable _ _ _ Hst) as [_ Ha].
  destruct (append_fact_spec self _ fact Ha)
    as (self' & content' & Hrun & Hc & Hk & Hother & Hframe).
  exists self'. split; [exact Hrun|]. split; [|exact Hframe].
  unfold content_state in *. rewrite Hc. unfold content_dict in *.
  destruct (dict_get "content" (_data self)) as [[| | | | | |content]|];
    try contradiction.
  - destruct Hst as (Hattrs & Hrels & _).
    rewrite Hk, (facts_under_entry _ _ _ Hrels), facts_entry_snoc.
    rewrite Hother, Hattrs by discriminate.
    repeat split. right. now destruct rels.
  - destruct Hst as [-> ->]. rewrite Hk, Hother by discriminate.
    repeat split. right. discriminate.
Qed.

Lemma content_state_set_data_source (self : GenericObservationForm)
  (attrs rels : list JSON) (u : UUID) :
  content_state (_data self) attrs rels ->
  content_state (_data (set_data_source self u)) attrs rels /\
  (forall k, k <> "dataSourceUUID" ->
     dict_get k (_data (set_data_source self u)) = dict_get k (_data self)).
Proof.
  intros Hst. assert (Hframe : forall k, k <> "dataSourceUUID" ->
     dict_get k (_data (set_data_source self u)) = dict_get k (_data self)).
  { intros k Hne. unfold set_data_source, store. cbn [_data].
    apply dict_get_set_other. congruence. }
  split; [|exact Hframe]. unfold content_state in *.
  now rewrite Hframe by discriminate.
Qed.

(** ** Chains of builder calls *)

Lemma content_state_init (share_level : ShareLevels) (seen_at : datetime) :
  content_state (_data (GenericObservationForm_init share_level seen_at)) [] [].
Proof. unfold content_state. cbn. auto. Qed.

(** Every chain of calls on a form in a good state succeeds, and leaves the
    form in the state that has the chain's facts appended in call order. *)
Lemma apply_calls_spec (cs : list call) :
  forall (self : GenericObservationForm) (attrs rels : list JSON),
    content_state (_data self) attrs rels ->
    exists self',
      apply_calls self cs = OK self' /\
      content_state (_data self') (attrs ++ attribute_facts_of cs)
        (rels ++ relationship_facts_of cs) /\
      (forall k, k <> "content" -> k <> "dataSourceUUID" ->
         dict_get k (_data self') = dict_get k (_data self)).
Proof.
  induction cs as [|c cs IH]; intros self attrs rels Hst.
  - exists self. cbn. rewrite !app_nil_r. auto.
  - destruct c as [u|e a v c|s k t c]; cbn [apply_calls apply_call bind].
    + destruct (content_state_set_data_source self _ _ u Hst) as [Hst' Hfr].
      destruct (IH _ _ _ Hst') as (self' & Hrun & Hst'' & Hfr').
      exists self'. cbn [attribute_facts_of relationship_facts_of].
      repeat split; auto. intros key H1 H2. now rewrite Hfr', Hfr.
    + rewrite add_attribute_fact_append.
      destruct (content_state_add_attribute self _ _
                  (attribute_fact e a v c) Hst) as (self1 & -> & Hst' & Hfr).
      destruct (IH _ _ _ Hst') as (self' & Hrun & Hst'' & Hfr').
      exists self'. cbn [bind attribute_facts_of relationship_facts_of].
      rewrite <- app_assoc in Hst''. repeat split; auto.
      intros key H1 H2. now rewrite Hfr', Hfr.
    + rewrite add_entity_relationship_append.
      destruct (content_state_add_relationship self _ _
                  (relationship_fact s k t c) Hst) as (self1 & -> & Hst' & Hfr).
      destruct (IH _ _ _ Hst') as (self' & Hrun & Hst'' & Hfr').
      exists self'. cbn [bind attribute_facts_of relationship_facts_of].
      rewrite <- app_assoc in Hst''. repeat split; auto.
      intros key H1 H2. now rewrite Hfr', Hfr.
Qed.

Lemma apply_calls_init (share_level : ShareLevels) (seen_at : datetime)
  (cs : list call) :
  exists self,
    apply_calls (GenericObservationForm_init share_level seen_at) cs = OK self /\
    content_state (_data self) (attribute_facts_of cs)
      (relationship_facts_of cs) /\
    dict_get "shareLevel" (_data self)
    = Some (JStr (ShareLevels_value share_level)) /\
    dict_get "seenAt" (_data self) = Some (JStr (rfc3339_timestamp seen_at)).
Proof.
  destruct (apply_calls_spec cs _ _ _
              (content_state_init share_level seen_at))
    as (self & Hrun & Hst & Hfr).
  exists self. repeat split; auto; rewrite Hfr by discriminate; reflexivity.
Qed.

Lemma content_state_entries (d : dict) (attrs rels : list JSON) :
  content_state d attrs rels ->
  content_entry (JObj d) "entityAttributeValues" = facts_entry attrs /\
  content_entry (JObj d) "entityRelationships" = facts_entry rels.
Proof.
  unfold content_state, content_entry.
  destruct (dict_get "content" d) as [[| | | | | |content]|]; try tauto.
  intros [-> ->]. auto.
Qed.

Lemma no_add_no_facts (cs : list call) :
  existsb is_add cs = false ->
  attribute_facts_of cs = [] /\ relationship_facts_of cs = [].
Proof.
  induction cs as [|[u|e a v c|s k t c] cs IH]; cbn; auto; discriminate.
Qed.

Lemma some_add_some_fact (cs : list call) :
  existsb is_add cs = true ->
  attribute_facts_of cs <> [] \/ relationship_facts_of cs <> [].
Proof.
  induction cs as [|[u|e a v c|s k t c] cs IH]; cbn; auto;
    try discriminate; intros _; [left|right]; discriminate.
Qed.

Lemma nth_error_last_snoc {A : Type} (l : list A) (x : A) :
  nth_error (l ++ [x]) (length (l ++ [x]) - 1) = Some x.
Proof.
  rewrite length_app. cbn [length]. 
  replace (length l + 1 - 1) with (length l) by lia.
  rewrite nth_error_app2 by lia. now rewrite Nat.sub_diag.
Qed.

(** ** The serialized form *)

Example uuid_str_docstring :
  uuid_str Sample.entity_uuid = "3a53cc35-f632-434c-bd4b-1ed8c014003a".
Proof. reflexivity. Qed.

(** The observation of [examples/register_generic.py], the target of the
    relationship given by UUID: two attribute facts, then a relationship. *)
Example create_generic_observation :
  (self <- add_attribute_fact
             (GenericObservationForm_init Sample.Green Sample.moscow_time)
             (ByForm Sample.domain) Sample.IsIoC (JBool true)
             (Some 0.9%float) ;;
   self <- add_attribute_fact self (ByForm Sample.domain)
             {| AttributeNames_value := "IsMalicious" |} (JBool true)
             (Some 0.9%float) ;;
   self <- add_entity_relationship self (ByForm Sample.domain)
             {| RelationshipKinds_value := "Resolves" |}
             (ByUUID Sample.entity_uuid) (Some 0.5%float) ;;
   OK (fst (json self)))
  = OK (JObj
      [("shareLevel", JStr "Green");
       ("seenAt", JStr "2021-12-24T17:50:08+03:00");
       ("content", JObj
          [("entityAttributeValues", JArr
              [JObj [("entity", fst (json Sample.domain));
                     ("attributeName", JStr "IsIoC");
                     ("value", JBool true);
                     ("confidence", JFloat 0.9%float)];
               JObj [("entity", fst (json Sample.domain));
                     ("attributeName", JStr "IsMalicious");
                     ("value", JBool true);
                     ("confidence", JFloat 0.9%float)]]);
           ("entityRelationships", JArr
              [JObj [("source", fst (json Sample.domain));
                     ("kind", JStr "Resolves");
                     ("target", JObj
                        [("uuid",
                          JStr "3a53cc35-f632-434c-bd4b-1ed8c014003a")]);
                     ("confidence", JFloat 0.5%float)]])])]).
Proof. reflexivity. Qed.

(** C1, as the spec states it, fails: the form
    [GenericObservationForm(ShareLevels.Green, seen_at)] with no fact added
    serializes to a document that has no ["content"] key at all, so the key
    is not mapped to an empty object. *)
Lemma C1_no_content_key_on_fresh_form :
  top_entry
    (fst (json (GenericObservationForm_init Sample.Green Sample.moscow_time)))
    "content" = None /\
  top_entry
    (fst (json (GenericObservationForm_init Sample.Green Sample.moscow_time)))
    "content" <> Some (JObj []).
Proof. split; [reflexivity | discriminate]. Qed.

(** C1, amended: the content object is created by the first
    [add_attribute_fact] or [add_entity_relationship] call.  A form on which
    none was made (whatever [set_data_source] calls were) serializes
    without a ["content"] key; once one was made the key is there and maps
    to an object. *)
Theorem C1_content_key_created_by_first_fact
  (share_level : ShareLevels) (seen_at : datetime) (cs : list call) :
  exists self,
    apply_calls (GenericObservationForm_init share_level seen_at) cs = OK self /\
    ((existsb is_add cs = false /\
      top_entry (fst (json self)) "content" = None) \/
     (existsb is_add cs = true /\
      exists content,
        top_entry (fst (json self)) "content" = Some (JObj content))).
Proof.
  destruct (apply_calls_init share_level seen_at cs)
    as (self & Hrun & Hst & _).
  exists self. split; [exact Hrun|]. cbn [json fst top_entry].
  unfold content_state in Hst.
  destruct (existsb is_add cs) eqn:Hadd.
  - right. split; [reflexivity|].
    destruct (some_add_some_fact cs Hadd) as [Hne|Hne];
      destruct (dict_get "content" (_data self)) as [[| | | | | |content]|];
      try contradiction; try (now exists content);
      destruct Hst as [Ha Hr]; congruence.
  - left. split; [reflexivity|].
    destruct (no_add_no_facts cs Hadd) as [Ha Hr]. rewrite Ha, Hr in Hst.
    destruct (dict_get "content" (_data self)) as [[| | | | | |content]|];
      try contradiction; auto.
    destruct Hst as (_ & _ & [H|H]); congruence.
Qed.

(** C2: after any chain of builder calls on a new form, the serialized
    document holds under [entityAttributeValues] exactly the records of the
    [add_attribute_fact] calls in call order, and under
    [entityRelationships] exactly the records of the
    [add_entity_relationship] calls in call order (a list that received no
    record has no key yet). *)
Theorem C2_facts_serialized_in_call_order
  (share_level : ShareLevels) (seen_at : datetime) (cs : list call) :
  exists self,
    apply_calls (GenericObservationForm_init share_level seen_at) cs = OK self /\
    content_entry (fst (json self)) "entityAttributeValues"
    = facts_entry (attribute_facts_of cs) /\
    content_entry (fst (json self)) "entityRelationships"
    = facts_entry (relationship_facts_of cs).
Proof.
  destruct (apply_calls_init share_level seen_at cs)
    as (self & Hrun & Hst & _).
  exists self. split; [exact Hrun|]. cbn [json fst].
  now apply content_state_entries.
Qed.

(** C3: serializing a form hands the form back unchanged, so a second
    serialization gives the same document; after further builder calls the
    serialization holds the facts of all calls made, the earlier and the
    later ones; and [register] posts the serialized document and leaves the
    form as it was, ready for another call. *)
Theorem C3_json_repeatable_and_current
  (share_level : ShareLevels) (seen_at : datetime) (cs cs' : list call) :
  exists self self',
    apply_calls (GenericObservationForm_init share_level seen_at) cs = OK self /\
    snd (json self) = self /\
    fst (json (snd (json self))) = fst (json self) /\
    apply_calls (snd (json self)) cs' = OK self' /\
    content_entry (fst (json self')) "entityAttributeValues"
    = facts_entry (attribute_facts_of cs ++ attribute_facts_of cs') /\
    content_entry (fst (json self')) "entityRelationships"
    = facts_entry (relationship_facts_of cs ++ relationship_facts_of cs') /\
    (forall c : connector,
       snd (register c self) = self /\
       sent (snd (fst (register c self)))
       = sent c ++ [{| req_method := POST;
                       req_path := "/enrichment/observations/generics";
                       req_params := [];
                       req_json := Some (fst (json self)) |}]).
Proof.
  destruct (apply_calls_init share_level seen_at cs)
    as (self & Hrun & Hst & _).
  destruct (apply_calls_spec cs' _ _ _ Hst) as (self' & Hrun' & Hst' & _).
  exists self, self'. cbn [json fst snd].
  repeat split; auto; now apply content_state_entries in Hst'.
Qed.

(** C8: a fact added without a confidence is serialized with the key
    ["confidence"] present and mapped to null, for attribute facts and for
    relationships alike, whatever calls were made on the form before. *)
Theorem C8_omitted_confidence_is_explicit_null
  (share_level : ShareLevels) (seen_at : datetime) (cs : list call)
  (entity source target : entity_ref) (attribute_name : AttributeNames)
  (value : JSON) (kind : RelationshipKinds) :
  exists self,
    apply_calls (GenericObservationForm_init share_level seen_at) cs = OK self /\
    (exists self' fact,
       add_attribute_fact self entity attribute_name value None = OK self' /\
       last_fact (fst (json self')) "entityAttributeValues" = Some fact /\
       top_entry fact "confidence" = Some JNull) /\
    (exists self' fact,
       add_entity_relationship self source kind target None = OK self' /\
       last_fact (fst (json self')) "entityRelationships" = Some fact /\
       top_entry fact "confidence" = Some JNull).
Proof.
  destruct (apply_calls_init share_level seen_at cs)
    as (self & Hrun & Hst & _).
  exists self. split; [exact Hrun|]. split.
  - rewrite add_attribute_fact_append.
    destruct (content_state_add_attribute self _ _
                (attribute_fact entity attribute_name value None) Hst)
      as (self' & Hadd & Hst' & _).
    exists self', (attribute_fact entity attribute_name value None).
    split; [exact Hadd|]. split; [|reflexivity].
    apply content_state_entries in Hst'. destruct Hst' as [He _].
    unfold last_fact. cbn [json fst]. rewrite He, facts_entry_snoc.
    apply nth_error_last_snoc.
  - rewrite add_entity_relationship_append.
    destruct (content_state_add_relationship self _ _
                (relationship_fact source kind target None) Hst)
      as (self' & Hadd & Hst' & _).
    exists self', (relationship_fact source kind target None).
    split; [exact Hadd|]. split; [|reflexivity].
    apply content_state_entries in Hst'. destruct Hst' as [_ He].
    unfold last_fact. cbn [json fst]. rewrite He, facts_entry_snoc.
    apply nth_error_last_snoc.
Qed.

(** C9: ["shareLevel"] and ["seenAt"] hold what the constructor stored
    after any chain of builder calls; on such a form [add_attribute_fact]
    and [add_entity_relationship] leave every entry of the document but
    ["content"] as it was, and [set_data_source] every entry but
    ["dataSourceUUID"]. *)
Theorem C9_share_level_and_seen_at_are_framed
  (share_level : ShareLevels) (seen_at : datetime) (cs : list call) :
  exists self,
    apply_calls (GenericObservationForm_init share_level seen_at) cs = OK self /\
    top_entry (fst (json self)) "shareLevel"
    = Some (JStr (ShareLevels_value share_level)) /\
    top_entry (fst (json self)) "seenAt"
    = Some (JStr (rfc3339_timestamp seen_at)) /\
    (forall entity attribute_name value confidence,
       exists self',
         add_attribute_fact self entity attribute_name value confidence
         = OK self' /\
         forall k, k <> "content" ->
           dict_get k (_data self') = dict_get k (_data self)) /\
    (forall source kind target confidence,
       exists self',
         add_entity_relationship self source kind target confidence
         = OK self' /\
         forall k, k <> "content" ->
           dict_get k (_data self') = dict_get k (_data self)) /\
    (forall source_uuid k, k <> "dataSourceUUID" ->
       dict_get k (_data (set_data_source self source_uuid))
       = dict_get k (_data self)).
Proof.
  destruct (apply_calls_init share_level seen_at cs)
    as (self & Hrun & Hst & Hsl & Hsa).
  exists self. cbn [json fst top_entry]. repeat split; auto.
  - intros entity attribute_name value confidence.
    rewrite add_attribute_fact_append.
    destruct (content_state_add_attribute self _ _
                (attribute_fact entity attribute_name value confidence) Hst)
      as (self' & Hadd & _ & Hfr).
    now exists self'.
  - intros source kind target confidence.
    rewrite add_entity_relationship_append.
    destruct (content_state_add_relationship self _ _
                (relationship_fact source kind target confidence) Hst)
      as (self' & Hadd & _ & Hfr).
    now exists self'.
  - intros source_uuid k Hne.
    now apply (content_state_set_data_source self _ _ source_uuid Hst).
Qed.

(** ** Relationship forecasts *)

(** C5: [forecast] makes one call, a GET of
    [/observable/relationships/{U}/{kebab(K)}/{V}]; its query has
    [forecastAt], the RFC 3339 text of the time, only when a time is given
    and [valuableFacts] only when the flag is given; and the result is the
    response body wrapped in a [RelationshipsForecastView] (or the failure
    of the call). *)
Theorem C5_forecast_is_one_get
  (kebab : RelationshipKinds -> string) (c : connector) (U V : UUID)
  (K : RelationshipKinds) (forecast_at : option datetime)
  (valuable_facts : option bool) :
  let rq :=
    {| req_method := GET;
       req_path :=
         ("/observable/relationships/" ++ uuid_str U ++ "/" ++ kebab K ++
          "/" ++ uuid_str V)%string;
       req_params :=
         match forecast_at with
         | Some t => [("forecastAt", JStr (rfc3339_timestamp t))]
         | None => []
         end ++
         match valuable_facts with
         | Some b => [("valuableFacts", JBool b)]
         | None => []
         end;
       req_json := None |} in
  let out := Relationships.forecast kebab c U V K forecast_at valuable_facts in
  sent (snd out) = sent c ++ [rq] /\
  respond (snd out) = respond c /\
  fst out
  = (doc <- respond c (sent c) rq ;;
     OK (Relationships.RelationshipsForecastView_init doc)).
Proof.
  destruct forecast_at, valuable_facts; cbv zeta; repeat split.
Qed.

Example forecast_resolves_to (c : connector) :
  sent (snd (Relationships.forecast (fun _ => "resolves-to") c
               Sample.entity_uuid Sample.entity_uuid Sample.ResolvesTo
               None None))
  = sent c ++
    [{| req_method := GET;
        req_path := "/observable/relationships/3a53cc35-f632-434c-bd4b-1ed8c014003a/resolves-to/3a53cc35-f632-434c-bd4b-1ed8c014003a";
        req_params := [];
        req_json := None |}].
Proof. reflexivity. Qed.

(** C6: [valuable_facts] is the absent value when the key is missing and
    when it is null; over a list it is a present sequence, the elements
    wrapped one by one in list order, so over the empty list it is the
    empty present sequence, which is not the absent value. *)
Theorem C6_valuable_facts_absent_or_present (d : dict) (items : list JSON) :
  (dict_get "valuableFacts" d = None ->
   Relationships.valuable_facts
     (Relationships.RelationshipsForecastView_init (JObj d)) = OK None) /\
  Relationships.valuable_facts
    (Relationships.RelationshipsForecastView_init
       (JObj (dict_set "valuableFacts" JNull d))) = OK None /\
  Relationships.valuable_facts
    (Relationships.RelationshipsForecastView_init
       (JObj (dict_set "valuableFacts" (JArr []) d))) = OK (Some []) /\
  Relationships.valuable_facts
    (Relationships.RelationshipsForecastView_init
       (JObj (dict_set "valuableFacts" (JArr items) d)))
  = OK (Some (map ValuableFactView_init items)) /\
  map view_data (map ValuableFactView_init items) = items /\
  (OK None : result (option (list ValuableFactView))) <> OK (Some []).
Proof.
  unfold Relationships.valuable_facts, _map_list_optional.
  cbn [view_data Relationships.RelationshipsForecastView_init].
  rewrite !dict_get_set_same. repeat split; try discriminate.
  - now intros ->.
  - rewrite map_map. cbn. apply map_id.
Qed.

Lemma C6_valuable_facts_witness :
  Relationships.valuable_facts
    (Relationships.RelationshipsForecastView_init
       (JObj [("confidence", JFloat 0.5)])) = OK None.
Proof.
  exact (proj1 (C6_valuable_facts_absent_or_present
                  [("confidence", JFloat 0.5)] []) eq_refl).
Defined.

(** ** Content views of the two generations *)

(** C10: over a content document that lacks [entityRelationships] the
    legacy content view returns the empty list where the newer one fails
    with the missing field, and likewise for [entityAttributeValues]. *)
Theorem C10_missing_fact_list_legacy_empty_newer_fails (d : dict) :
  (dict_get "entityRelationships" d = None ->
   Legacy.entity_relationships d = OK [] /\
   entity_relationships (GenericObservationContentView_init (JObj d))
   = Raise (MissingField "entityRelationships")) /\
  (dict_get "entityAttributeValues" d = None ->
   Legacy.entity_attribute_values d = OK [] /\
   entity_attribute_values (GenericObservationContentView_init (JObj d))
   = Raise (MissingField "entityAttributeValues")).
Proof.
  unfold Legacy.entity_relationships, Legacy.entity_attribute_values,
    entity_relationships, entity_attribute_values, _get, dict_get_default.
  cbn [view_data GenericObservationContentView_init].
  split; intros ->; split; reflexivity.
Qed.

Lemma C10_missing_fact_list_witness :
  (Legacy.entity_relationships [("expiresAt", JNull)] = OK [] /\
   entity_relationships
     (GenericObservationContentView_init (JObj [("expiresAt", JNull)]))
   = Raise (MissingField "entityRelationships")) /\
  (Legacy.entity_attribute_values [("expiresAt", JNull)] = OK [] /\
   entity_attribute_values
     (GenericObservationContentView_init (JObj [("expiresAt", JNull)]))
   = Raise (MissingField "entityAttributeValues")).
Proof.
  destruct (C10_missing_fact_list_legacy_empty_newer_fails
              [("expiresAt", JNull)]) as [Hrel Hattr].
  split; [exact (Hrel eq_refl) | exact (Hattr eq_refl)].
Defined.

(** ** Timestamps *)









Example isoformat_with_seconds_in_the_offset :
  valid_datetime Sample.amsterdam_time /\
  isoformat Sample.amsterdam_time = "1936-06-01T12:00:00+00:19:32" /\
  has_numeric_offset (isoformat Sample.amsterdam_time) = false.
Proof. unfold valid_datetime. cbn. repeat split; lia. Qed.




(* ================================================================== *)
(** * Further properties *)

Import FormChains.

(** ** More on dictionaries *)

Lemma has_key_dict_get (k : string) (d : dict) :
  has_key k (dict_keys d)
  = match dict_get k d with Some _ => true | None => false end.
Proof.
  unfold has_key, dict_keys. induction d as [|[k' v] d IH]; cbn; auto.
  destruct (String.eqb k k'); auto.
Qed.

Lemma dict_keys_set (k : string) (v : JSON) (d : dict) :
  dict_keys (dict_set k v d) = with_key k (dict_keys d).
Proof.
  unfold with_key, has_key, dict_keys.
  induction d as [|[k' v'] d IH]; cbn; auto.
  destruct (String.eqb k k') eqn:E; cbn; auto.
  rewrite IH. now destruct (existsb (String.eqb k) (map fst d)).
Qed.

Lemma dict_set_set (k : string) (v v' : JSON) (d : dict) :
  dict_set k v (dict_set k v' d) = dict_set k v d.
Proof.
  induction d as [|[k' w] d IH]; cbn.
  - now rewrite String.eqb_refl.
  - destruct (String.eqb k k') eqn:E; cbn; rewrite E; congruence.
Qed.

Lemma dict_set_comm (k k0 : string) (v w : JSON) (d : dict) :
  k <> k0 -> dict_get k0 d <> None ->
  dict_set k v (dict_set k0 w d) = dict_set k0 w (dict_set k v d).
Proof.
  intros Hne. induction d as [|[k' x] d IH]; cbn; [congruence|].
  destruct (String.eqb_spec k0 k') as [->|H0]; intros Hin; cbn.
  - destruct (String.eqb_spec k k'); [congruence|]. cbn.
    now rewrite String.eqb_refl.
  - destruct (String.eqb_spec k k') as [->|H1]; cbn.
    + destruct (String.eqb_spec k0 k'); congruence.
    + destruct (String.eqb_spec k0 k'); [congruence|]. now rewrite IH.
Qed.

Lemma dict_get_set_present (k k0 : string) (v : JSON) (d : dict) :
  dict_get k0 d <> None -> dict_get k0 (dict_set k v d) <> None.
Proof.
  intros H. destruct (String.eqb_spec k k0) as [->|Hne].
  - rewrite dict_get_set_same. discriminate.
  - now rewrite dict_get_set_other.
Qed.

Lemma with_key_NoDup (k : string) (ks : list string) :
  NoDup ks -> NoDup (with_key k ks).
Proof.
  intros H. unfold with_key, has_key.
  destruct (existsb (String.eqb k) ks) eqn:E; auto.
  apply NoDup_app; [exact H | repeat constructor; intros [] |].
  intros x Hx [->|[]].
  assert (existsb (String.eqb x) ks = true); [|congruence].
  apply existsb_exists. exists x. split; auto. apply String.eqb_refl.
Qed.

Lemma with_key_incl (k : string) (ks allowed : list string) :
  In k allowed -> incl ks allowed -> incl (with_key k ks) allowed.
Proof.
  intros Hk H. unfold with_key. destruct (has_key k ks); auto.
  apply incl_app; auto. intros x [<-|[]]. exact Hk.
Qed.

(** ** The keys of a form's document *)

(** One append adds at most the key ["content"] to the document and at
    most [key] to the content object, each at the end. *)
Lemma append_fact_keys (self : GenericObservationForm) (key : string)
  (fact : JSON) :
  appendable key (_data self) ->
  exists self' content',
    append_fact self key fact = OK self' /\
    dict_get "content" (_data self') = Some (JObj content') /\
    dict_keys (_data self') = with_key "content" (dict_keys (_data self)) /\
    dict_keys content' = with_key key (dict_keys (content_dict (_data self))).
Proof.
  destruct self as [d]. unfold appendable, append_fact, _content, content_dict.
  cbn [_data]. destruct (dict_get "content" d) as [v|] eqn:Hc.
  - destruct v as [| | | | |?|content]; try contradiction.
    rewrite (dict_setdefault_present _ _ _ _ Hc).
    cbn [obj_setdefault]. unfold dict_setdefault.
    destruct (dict_get key content) as [w|] eqn:Hk.
    + destruct w as [| | | | |facts|?]; try contradiction. intros _.
      cbn [bind list_append obj_store]. unfold store. cbn [_data].
      eexists _, _. split; [reflexivity|]. cbn [_data].
      rewrite dict_get_set_same. split; [reflexivity|].
      split; apply dict_keys_set.
    + intros _. cbn [bind list_append obj_store app]. unfold store.
      eexists _, _. split; [reflexivity|]. cbn [_data].
      rewrite dict_get_set_same. split; [reflexivity|].
      split; [apply dict_keys_set|].
      rewrite dict_set_set. apply dict_keys_set.
  - intros _. rewrite (dict_setdefault_missing _ _ _ Hc).
    cbn [obj_setdefault]. unfold dict_setdefault.
    cbn [dict_get dict_set bind list_append obj_store app]. unfold store.
    rewrite String.eqb_refl.
    eexists _, _. split; [reflexivity|]. cbn [_data].
    rewrite dict_get_set_same. split; [reflexivity|].
    rewrite dict_set_set. split; [apply dict_keys_set|reflexivity].
Qed.

(** A property of documents that [set_data_source] and the two add methods
    keep holds after every chain of calls on a form that has it. *)
Lemma apply_calls_invariant (P : dict -> Prop) :
  (forall self u, P (_data self) -> P (_data (set_data_source self u))) ->
  (forall self key fact self',
     key = "entityAttributeValues" \/ key = "entityRelationships" ->
     appendable key (_data self) ->
     append_fact self key fact = OK self' ->
     P (_data self) -> P (_data self')) ->
  forall (cs : list call) (self : GenericObservationForm)
         (attrs rels : list JSON),
    content_state (_data self) attrs rels -> P (_data self) ->
    exists self', apply_calls self cs = OK self' /\ P (_data self').
Proof.
  intros Hset Hadd. induction cs as [|c cs IH]; intros self attrs rels Hst HP.
  - exists self. auto.
  - destruct (content_state_appendable _ _ _ Hst) as [Ha Hr].
    destruct c as [u|e a v c|s k t c]; cbn [apply_calls apply_call bind].
    + destruct (content_state_set_data_source self _ _ u Hst) as [Hst' _].
      apply (IH _ _ _ Hst'). auto.
    + rewrite add_attribute_fact_append.
      destruct (content_state_add_attribute self _ _
                  (attribute_fact e a v c) Hst) as (self1 & Hrun & Hst' & _).
      rewrite Hrun. cbn [bind]. apply (IH _ _ _ Hst'). eauto.
    + rewrite add_entity_relationship_append.
      destruct (content_state_add_relationship self _ _
                  (relationship_fact s k t c) Hst) as (self1 & Hrun & Hst' & _).
      rewrite Hrun. cbn [bind]. apply (IH _ _ _ Hst'). eauto.
Qed.

Lemma with_key_tail (k a b : string) (rest allowed : list string) :
  In k allowed -> incl rest allowed ->
  exists rest',
    with_key k (a :: b :: rest) = a :: b :: rest' /\ incl rest' allowed.
Proof.
  intros Hk H. unfold with_key. destruct (has_key k (a :: b :: rest)).
  - now exists rest.
  - exists (rest ++ [k]). split; [reflexivity|].
    apply incl_app; auto. intros x [<-|[]]. exact Hk.
Qed.

Lemma tidy_keys_set_data_source (self : GenericObservationForm) (u : UUID) :
  tidy_keys (_data self) -> tidy_keys (_data (set_data_source self u)).
Proof.
  intros (Hnd & (rest & Hk & Hin) & Hc). unfold tidy_keys, set_data_source, store.
  cbn [_data]. rewrite dict_keys_set. split; [now apply with_key_NoDup|].
  split.
  - rewrite Hk. apply with_key_tail; cbn; auto.
  - unfold content_dict. rewrite dict_get_set_other by discriminate. exact Hc.
Qed.

Lemma tidy_keys_append_fact (self : GenericObservationForm) (key : string)
  (fact : JSON) (self' : GenericObservationForm) :
  key = "entityAttributeValues" \/ key = "entityRelationships" ->
  appendable key (_data self) ->
  append_fact self key fact = OK self' ->
  tidy_keys (_data self) -> tidy_keys (_data self').
Proof.
  intros Hkey Happ Hrun (Hnd & (rest & Hk & Hin) & Hcn & Hci).
  destruct (append_fact_keys self key fact Happ)
    as (self1 & content' & Hrun' & Hc & Hkeys & Hckeys).
  rewrite Hrun in Hrun'. injection Hrun' as <-.
  unfold tidy_keys. rewrite Hkeys. split; [now apply with_key_NoDup|].
  split.
  - rewrite Hk. apply with_key_tail; cbn; auto.
  - unfold content_dict at 1 2. rewrite Hc, Hckeys.
    split; [now apply with_key_NoDup|].
    apply with_key_incl; auto. destruct Hkey as [->| ->]; cbn; auto.
Qed.

(** X1: after any chain of builder calls the serialized document has no
    key twice; its keys are [shareLevel] and [seenAt], in this order, then
    [dataSourceUUID] and [content] as far as they were set; and the content
    object has no key twice and no key but the two fact lists. *)
Theorem X1_document_keys_unique_and_known
  (share_level : ShareLevels) (seen_at : datetime) (cs : list call) :
  exists self rest,
    apply_calls (GenericObservationForm_init share_level seen_at) cs = OK self /\
    fst (json self) = JObj (_data self) /\
    NoDup (dict_keys (_data self)) /\
    dict_keys (_data self) = "shareLevel" :: "seenAt" :: rest /\
    incl rest ["dataSourceUUID"; "content"] /\
    NoDup (dict_keys (content_dict (_data self))) /\
    incl (dict_keys (content_dict (_data self)))
      ["entityAttributeValues"; "entityRelationships"].
Proof.
  destruct (apply_calls_invariant tidy_keys tidy_keys_set_data_source
              tidy_keys_append_fact cs _ _ _
              (content_state_init share_level seen_at))
    as (self & Hrun & Hnd & (rest & Hk & Hin) & Hcn & Hci).
  - unfold tidy_keys. cbn. repeat split.
    + repeat constructor; cbn; intuition discriminate.
    + exists []. split; [reflexivity|]. intros x [].
    + constructor.
    + intros x [].
  - exists self, rest. repeat split; auto.
Qed.

(** ** The data source *)

Lemma data_source_after_calls (cs : list call) :
  forall (self : GenericObservationForm) (attrs rels : list JSON),
    content_state (_data self) attrs rels ->
    exists self',
      apply_calls self cs = OK self' /\
      dict_get "dataSourceUUID" (_data self')
      = match last_data_source cs with
        | Some u => Some (JStr (uuid_str u))
        | None => dict_get "dataSourceUUID" (_data self)
        end.
Proof.
  induction cs as [|c cs IH]; intros self attrs rels Hst.
  - exists self. auto.
  - destruct c as [u|e a v c|s k t c];
      cbn [apply_calls apply_call bind last_data_source].
    + destruct (content_state_set_data_source self _ _ u Hst) as [Hst' _].
      destruct (IH _ _ _ Hst') as (self' & Hrun & Hds).
      exists self'. split; [exact Hrun|]. rewrite Hds.
      destruct (last_data_source cs); [reflexivity|].
      unfold set_data_source, store. cbn [_data]. apply dict_get_set_same.
    + rewrite add_attribute_fact_append.
      destruct (content_state_add_attribute self _ _
                  (attribute_fact e a v c) Hst) as (self1 & -> & Hst' & Hfr).
      destruct (IH _ _ _ Hst') as (self' & Hrun & Hds).
      exists self'. split; [exact Hrun|]. rewrite Hds.
      now rewrite Hfr by discriminate.
    + rewrite add_entity_relationship_append.
      destruct (content_state_add_relationship self _ _
                  (relationship_fact s k t c) Hst) as (self1 & -> & Hst' & Hfr).
      destruct (IH _ _ _ Hst') as (self' & Hrun & Hds).
      exists self'. split; [exact Hrun|]. rewrite Hds.
      now rewrite Hfr by discriminate.
Qed.

(** X2: the serialized document names the data source of the last
    [set_data_source] call of the chain, whatever facts were added before
    or after it, and has no [dataSourceUUID] entry when there was no such
    call. *)
Theorem X2_last_data_source_wins
  (share_level : ShareLevels) (seen_at : datetime) (cs : list call) :
  exists self,
    apply_calls (GenericObservationForm_init share_level seen_at) cs = OK self /\
    top_entry (fst (json self)) "dataSourceUUID"
    = match last_data_source cs with
      | Some u => Some (JStr (uuid_str u))
      | None => None
      end.
Proof.
  destruct (data_source_after_calls cs _ _ _
              (content_state_init share_level seen_at)) as (self & Hrun & Hds).
  exists self. split; [exact Hrun|]. cbn [json fst top_entry]. rewrite Hds.
  now destruct (last_data_source cs).
Qed.

(** ** The content property *)

(** X3: reading [_content] creates the content object at most once: a
    second read returns the same object and leaves the document as the
    first read left it, a stored object is returned as it is without any
    change to the document, and no entry besides ["content"] is touched.
    The legacy property is the same function. *)
Theorem X3_content_read_is_stable (self : GenericObservationForm) :
  _content (snd (_content self)) = _content self /\
  (forall v, dict_get "content" (_data self) = Some v ->
     _content self = (v, self)) /\
  (forall k, k <> "content" ->
     dict_get k (_data (snd (_content self))) = dict_get k (_data self)) /\
  Legacy._content self = _content self.
Proof.
  destruct self as [d].
  unfold Legacy._content, _content, dict_setdefault. cbn [_data].
  destruct (dict_get "content" d) as [v|] eqn:Hc; cbn [snd fst _data].
  - rewrite Hc. repeat split; auto. now intros v' [= <-].
  - rewrite dict_get_set_same. repeat split; try discriminate.
    intros k Hne. apply dict_get_set_other. congruence.
Qed.

Lemma X3_content_read_witness :
  _content {| _data := [("content", JObj [("entityRelationships", JArr [])])] |}
  = (JObj [("entityRelationships", JArr [])],
     {| _data := [("content", JObj [("entityRelationships", JArr [])])] |}).
Proof.
  exact (proj1 (proj2 (X3_content_read_is_stable
           {| _data := [("content", JObj [("entityRelationships", JArr [])])] |}))
           _ eq_refl).
Defined.

(** ** The two generations of the form *)

(** An append rewrites the entry ["content"] of the document and nothing
    else. *)
Lemma append_fact_new_content (d : dict) (key : string) (fact : JSON) :
  append_fact {| _data := d |} key fact
  = (content <- new_content (dict_get "content" d) key fact ;;
     OK {| _data := dict_set "content" content d |}).
Proof.
  unfold append_fact, new_content, _content, dict_setdefault, store.
  cbn [_data].
  destruct (dict_get "content" d) as [v|]; cbn [_data];
    [set (c := v)|set (c := JObj [])];
    (destruct (obj_setdefault c key (JArr [])) as [[facts content]|e];
       cbn [bind]; [|reflexivity]);
    (destruct (list_append facts fact) as [facts'|e]; cbn [bind];
       [|reflexivity]);
    (destruct (obj_store content key facts') as [content'|e];
       cbn [bind _data]; [|reflexivity]).
  - reflexivity.
  - now rewrite dict_set_set.
Qed.

(** Replacing the value of a key that is there, other than ["content"]
    and ["dataSourceUUID"], before a chain of calls or after it comes to
    the same. *)
Lemma apply_calls_replace_entry (k0 : string) (w : JSON) (cs : list call) :
  k0 <> "content" -> k0 <> "dataSourceUUID" ->
  forall d, dict_get k0 d <> None ->
    apply_calls {| _data := dict_set k0 w d |} cs
    = (self <- apply_calls {| _data := d |} cs ;;
       OK {| _data := dict_set k0 w (_data self) |}).
Proof.
  intros Hc Hds.
  assert (Happend : forall d key fact, dict_get k0 d <> None ->
    append_fact {| _data := dict_set k0 w d |} key fact
    = (self <- append_fact {| _data := d |} key fact ;;
       OK {| _data := dict_set k0 w (_data self) |})).
  { intros d key fact Hin. rewrite !append_fact_new_content.
    rewrite dict_get_set_other by congruence.
    destruct (new_content (dict_get "content" d) key fact) as [content|e];
      cbn [bind _data]; [|reflexivity].
    rewrite dict_set_comm by congruence. reflexivity. }
  assert (Hkeep : forall d key fact self', dict_get k0 d <> None ->
    append_fact {| _data := d |} key fact = OK self' ->
    dict_get k0 (_data self') <> None).
  { intros d key fact self' Hin. rewrite append_fact_new_content.
    destruct (new_content (dict_get "content" d) key fact) as [content|e];
      cbn [bind]; [|discriminate].
    intros [= <-]. cbn [_data]. now apply dict_get_set_present. }
  induction cs as [|c cs IH]; intros d Hin; cbn [apply_calls bind].
  - reflexivity.
  - destruct c as [u|e a v c|s k t c]; cbn [apply_call bind].
    + unfold set_data_source, store. cbn [_data].
      rewrite dict_set_comm by congruence.
      apply IH. now apply dict_get_set_present.
    + rewrite !add_attribute_fact_append, Happend by exact Hin.
      destruct (append_fact {| _data := d |} "entityAttributeValues"
                  (attribute_fact e a v c)) as [[d1]|err] eqn:Hrun;
        cbn [bind _data]; [|reflexivity].
      apply IH. apply (Hkeep _ _ _ _ Hin Hrun).
    + rewrite !add_entity_relationship_append, Happend by exact Hin.
      destruct (append_fact {| _data := d |} "entityRelationships"
                  (relationship_fact s k t c)) as [[d1]|err] eqn:Hrun;
        cbn [bind _data]; [|reflexivity].
      apply IH. apply (Hkeep _ _ _ _ Hin Hrun).
Qed.

Lemma legacy_apply_calls_newer (cs : list Legacy.call) :
  forall self,
    Legacy.apply_calls self cs = apply_calls self (map Legacy.newer_call cs).
Proof.
  induction cs as [|c cs IH]; intros self; cbn [Legacy.apply_calls map
    apply_calls]; [reflexivity|].
  assert (Hc : Legacy.apply_call self c = apply_call self (Legacy.newer_call c))
    by (destruct c; reflexivity).
  rewrite Hc. destruct (apply_call self (Legacy.newer_call c)); cbn [bind];
    auto.
Qed.

(** X4: the same chain of [set_data_source] and [add_attribute_fact]
    calls (entities given as forms) on a legacy form and on a newer form
    built from the same share level and time always succeeds on both and
    gives the same document, the same keys in the same order and the same
    values, but for the text stored under [seenAt]. *)
Theorem X4_generations_build_the_same_document
  (share_level : ShareLevels) (seen_at : datetime) (cs : list Legacy.call) :
  exists legacy newer,
    Legacy.apply_calls
      (Legacy.GenericObservationForm_init share_level seen_at) cs = OK legacy /\
    apply_calls (GenericObservationForm_init share_level seen_at)
      (map Legacy.newer_call cs) = OK newer /\
    _data newer
    = dict_set "seenAt" (JStr (rfc3339_timestamp seen_at)) (_data legacy) /\
    dict_keys (_data newer) = dict_keys (_data legacy) /\
    (forall k, k <> "seenAt" ->
       dict_get k (_data newer) = dict_get k (_data legacy)) /\
    dict_get "seenAt" (_data legacy) = Some (JStr (isoformat seen_at)).
Proof.
  pose (d0 := [("shareLevel", JStr (ShareLevels_value share_level));
               ("seenAt", JStr (isoformat seen_at))]).
  assert (Hst : content_state d0 [] []) by (unfold content_state; cbn; auto).
  destruct (apply_calls_spec (map Legacy.newer_call cs)
              {| _data := d0 |} _ _ Hst) as (legacy & Hrun & _ & Hfr).
  assert (Hin : dict_get "seenAt" d0 <> None) by (cbn; discriminate).
  pose proof (apply_calls_replace_entry "seenAt"
                (JStr (rfc3339_timestamp seen_at))
                (map Legacy.newer_call cs) ltac:(discriminate)
                ltac:(discriminate) d0 Hin) as Hnew.
  rewrite Hrun in Hnew. cbn [bind] in Hnew.
  exists legacy, {| _data := dict_set "seenAt"
                     (JStr (rfc3339_timestamp seen_at)) (_data legacy) |}.
  assert (Hseen : dict_get "seenAt" (_data legacy)
                  = Some (JStr (isoformat seen_at))).
  { rewrite Hfr by discriminate. reflexivity. }
  split; [rewrite legacy_apply_calls_newer; exact Hrun|].
  split; [exact Hnew|]. cbn [_data]. split; [reflexivity|].
  split.
  - rewrite dict_keys_set. unfold with_key.
    now rewrite has_key_dict_get, Hseen.
  - split; [|exact Hseen]. intros k Hne. apply dict_get_set_other. congruence.
Qed.

(** ** Reading a form's document through the views *)

Lemma content_state_content (d : dict) (attrs rels : list JSON) :
  content_state d attrs rels -> attrs <> [] \/ rels <> [] ->
  exists content,
    dict_get "content" d = Some (JObj content) /\
    dict_get "entityAttributeValues" content = facts_entry attrs /\
    dict_get "entityRelationships" content = facts_entry rels.
Proof.
  unfold content_state.
  destruct (dict_get "content" d) as [[| | | | | |content]|]; try tauto.
  intros (Ha & Hr & _) _. now exists content.
Qed.

Lemma facts_entry_nonempty (facts : list JSON) :
  facts <> [] -> facts_entry facts = Some (JArr facts).
Proof. destruct facts; [congruence|reflexivity]. Qed.

(** X5: the newer views read back what the newer form wrote.  Of a
    document serialized after a chain of builder calls, [content] gives the
    content view; its [entity_attribute_values] are views over the records
    of the [add_attribute_fact] calls in call order when there was one, and
    its [entity_relationships] views over the records of the
    [add_entity_relationship] calls when there was one.  A record read
    through [AttributeValueView] gives back the value and the entity
    document it was built from, one read through [RelationshipView] its
    source and target. *)
Theorem X5_newer_views_read_back_the_form
  (share_level : ShareLevels) (seen_at : datetime) (cs : list call) :
  existsb is_add cs = true ->
  exists self content_view,
    apply_calls (GenericObservationForm_init share_level seen_at) cs = OK self /\
    content (GenericObservationView_init (fst (json self))) = OK content_view /\
    (attribute_facts_of cs <> [] ->
     entity_attribute_values content_view
     = OK (map AttributeValueView_init (attribute_facts_of cs))) /\
    (relationship_facts_of cs <> [] ->
     entity_relationships content_view
     = OK (map RelationshipView_init (relationship_facts_of cs))) /\
    (forall entity attribute_name value confidence,
       GenericViews.AttributeValueView.value
         (AttributeValueView_init
            (attribute_fact entity attribute_name value confidence))
       = OK value /\
       GenericViews.AttributeValueView.entity
         (AttributeValueView_init
            (attribute_fact entity attribute_name value confidence))
       = OK (EntityView_init (entity_json entity))) /\
    (forall source kind target confidence,
       GenericViews.RelationshipView.source
         (RelationshipView_init
            (relationship_fact source kind target confidence))
       = OK (EntityView_init (entity_json source)) /\
       GenericViews.RelationshipView.target
         (RelationshipView_init
            (relationship_fact source kind target confidence))
       = OK (EntityView_init (entity_json target))).
Proof.
  intros Hadd.
  destruct (apply_calls_init share_level seen_at cs)
    as (self & Hrun & Hst & _).
  destruct (content_state_content _ _ _ Hst (some_add_some_fact cs Hadd))
    as (c & Hc & Ha & Hr).
  exists self, (GenericObservationContentView_init (JObj c)).
  split; [exact Hrun|]. split.
  { unfold content, _get. cbn [json fst view_data GenericObservationView_init].
    now rewrite Hc. }
  unfold entity_attribute_values, entity_relationships, _get.
  cbn [view_data GenericObservationContentView_init].
  rewrite Ha, Hr. repeat split.
  - intros Hne. now rewrite (facts_entry_nonempty _ Hne).
  - intros Hne. now rewrite (facts_entry_nonempty _ Hne).
Qed.

Lemma X5_newer_views_witness :
  exists content_view,
    content
      (GenericObservationView_init
         (JObj [("shareLevel", JStr "Green");
                ("seenAt", JStr "2021-12-24T17:50:08+03:00");
                ("content", JObj
                   [("entityAttributeValues", JArr
                       [attribute_fact (ByUUID Sample.entity_uuid)
                          Sample.IsIoC (JBool true) None])])]))
    = OK content_view /\
    entity_attribute_values content_view
    = OK [AttributeValueView_init
            (attribute_fact (ByUUID Sample.entity_uuid) Sample.IsIoC
               (JBool true) None)].
Proof.
  destruct (X5_newer_views_read_back_the_form Sample.Green Sample.moscow_time
              [AddAttributeFact (ByUUID Sample.entity_uuid) Sample.IsIoC
                 (JBool true) None] eq_refl)
    as (self & content_view & Hrun & Hcontent & Hattrs & _).
  injection Hrun as <-.
  exists content_view. split; [exact Hcontent|].
  apply Hattrs. discriminate.
Defined.

(** X6: the newer form and the newer view do not agree on a fact list
    that stayed empty.  After a chain that added relationships and no
    attribute fact, the document has no [entityAttributeValues] key, and
    the newer content view fails on it with the missing field where the
    legacy content view reads the empty list; with attribute facts and no
    relationship it is [entity_relationships] that does. *)
Theorem X6_one_sided_content_fails_in_newer_view
  (share_level : ShareLevels) (seen_at : datetime) (cs : list call) :
  existsb is_add cs = true ->
  exists self content,
    apply_calls (GenericObservationForm_init share_level seen_at) cs = OK self /\
    top_entry (fst (json self)) "content" = Some (JObj content) /\
    (attribute_facts_of cs = [] ->
     entity_attribute_values (GenericObservationContentView_init (JObj content))
     = Raise (MissingField "entityAttributeValues") /\
     Legacy.entity_attribute_values content = OK []) /\
    (relationship_facts_of cs = [] ->
     entity_relationships (GenericObservationContentView_init (JObj content))
     = Raise (MissingField "entityRelationships") /\
     Legacy.entity_relationships content = OK []).
Proof.
  intros Hadd.
  destruct (apply_calls_init share_level seen_at cs)
    as (self & Hrun & Hst & _).
  destruct (content_state_content _ _ _ Hst (some_add_some_fact cs Hadd))
    as (c & Hc & Ha & Hr).
  exists self, c. split; [exact Hrun|]. split; [exact Hc|].
  unfold entity_attribute_values, entity_relationships, _get,
    Legacy.entity_attribute_values, Legacy.entity_relationships,
    dict_get_default.
  cbn [view_data GenericObservationContentView_init].
  rewrite Ha, Hr. split; intros ->; split; reflexivity.
Qed.

Lemma X6_one_sided_content_witness :
  entity_attribute_values
    (GenericObservationContentView_init
       (JObj [("entityRelationships", JArr
                 [relationship_fact (ByUUID Sample.entity_uuid)
                    Sample.ResolvesTo (ByUUID Sample.entity_uuid) None])]))
  = Raise (MissingField "entityAttributeValues").
Proof.
  destruct (X6_one_sided_content_fails_in_newer_view Sample.Green
              Sample.moscow_time
              [AddEntityRelationship (ByUUID Sample.entity_uuid)
                 Sample.ResolvesTo (ByUUID Sample.entity_uuid) None] eq_refl)
    as (self & content & Hrun & Hcontent & Hattrs & _).
  injection Hrun as <-. injection Hcontent as <-.
  exact (proj1 (Hattrs eq_refl)).
Defined.

(** ** The legacy views *)

Lemma mapM_dict_of_objects (ds : list dict) :
  mapM Legacy.dict_of (map JObj ds) = OK ds.
Proof.
  induction ds as [|d ds IH]; cbn [map mapM Legacy.dict_of bind];
    [reflexivity|].
  now rewrite IH.
Qed.

Lemma legacy_facts_of_chain (cs : list Legacy.call) :
  attribute_facts_of (map Legacy.newer_call cs)
  = map JObj (Legacy.attribute_fields_of cs) /\
  relationship_facts_of (map Legacy.newer_call cs) = [].
Proof.
  induction cs as [|[u|e a v c] cs [IHa IHr]]; cbn; auto.
  split; [|exact IHr]. now rewrite IHa.
Qed.

(** X7: the legacy view reads back what the legacy form wrote.  After a
    chain of legacy builder calls with at least one [add_attribute_fact],
    the content view of the serialized document lists under
    [entity_attribute_values] the records of those calls in call order,
    and under [entity_relationships] nothing: the legacy form never writes
    a relationship.  The properties of a record give back the entity
    document, attribute name, value and confidence of its call. *)
Theorem X7_legacy_view_reads_back_the_legacy_form
  (share_level : ShareLevels) (seen_at : datetime) (cs : list Legacy.call) :
  Legacy.attribute_fields_of cs <> [] ->
  exists self content,
    Legacy.apply_calls
      (Legacy.GenericObservationForm_init share_level seen_at) cs = OK self /\
    Legacy.content (Legacy.GenericObservationView_init (fst (json self)))
    = OK content /\
    Legacy.entity_attribute_values content
    = OK (Legacy.attribute_fields_of cs) /\
    Legacy.entity_relationships content = OK [] /\
    (forall entity attribute_name value confidence,
       let fact :=
         Legacy.attribute_fact_fields entity attribute_name value confidence in
       Legacy.AttributeValueViewProperties.entity fact = fst (json entity) /\
       Legacy.AttributeValueViewProperties.attribute_name fact
       = JStr (AttributeNames_value attribute_name) /\
       Legacy.AttributeValueViewProperties.value fact = value /\
       Legacy.AttributeValueViewProperties.confidence fact
       = confidence_json confidence).
Proof.
  intros Hne.
  pose (d0 := [("shareLevel", JStr (ShareLevels_value share_level));
               ("seenAt", JStr (isoformat seen_at))]).
  assert (Hst : content_state d0 [] []) by (unfold content_state; cbn; auto).
  destruct (apply_calls_spec (map Legacy.newer_call cs)
              {| _data := d0 |} _ _ Hst) as (self & Hrun & Hst' & _).
  cbn [app] in Hst'. destruct (legacy_facts_of_chain cs) as [Ha Hr].
  rewrite Ha, Hr in Hst'.
  assert (Hsome : map JObj (Legacy.attribute_fields_of cs) <> []).
  { destruct (Legacy.attribute_fields_of cs); [congruence|discriminate]. }
  destruct (content_state_content _ _ _ Hst' (or_introl Hsome))
    as (c & Hc & Hca & Hcr).
  exists self, c. split; [rewrite legacy_apply_calls_newer; exact Hrun|].
  split.
  { unfold Legacy.content, _get.
    cbn [json fst view_data Legacy.GenericObservationView_init].
    now rewrite Hc. }
  unfold Legacy.entity_attribute_values, Legacy.entity_relationships,
    dict_get_default.
  rewrite Hca, Hcr, (facts_entry_nonempty _ Hsome).
  cbn [facts_entry py_iter bind mapM].
  split; [apply mapM_dict_of_objects|]. split; [reflexivity|].
  intros entity attribute_name value confidence. repeat split.
Qed.

Lemma X7_legacy_view_witness :
  exists content,
    Legacy.content
      (Legacy.GenericObservationView_init
         (JObj [("shareLevel", JStr "Green");
                ("seenAt", JStr "2021-12-24T17:50:08");
                ("content", JObj
                   [("entityAttributeValues", JArr
                       [JObj (Legacy.attribute_fact_fields Sample.domain
                                Sample.IsIoC (JBool true) None)])])]))
    = OK content /\
    Legacy.entity_attribute_values content
    = OK [Legacy.attribute_fact_fields Sample.domain Sample.IsIoC
            (JBool true) None] /\
    Legacy.entity_relationships content = OK [].
Proof.
  destruct (X7_legacy_view_reads_back_the_legacy_form Sample.Green
              Sample.naive_time
              [Legacy.AddAttributeFact Sample.domain Sample.IsIoC
                 (JBool true) None] ltac:(discriminate))
    as (self & content & Hrun & Hcontent & Hattrs & Hrels & _).
  injection Hrun as <-.
  exists content. repeat split; assumption.
Defined.

(** X8: what the content views make of a fact list that is there.  The
    legacy view returns the objects of a list of objects as they are, in
    list order, and the newer view wraps the items of any list one by one
    in list order, whatever they are.  A key that is present and null makes
    both fail with a type error: the empty list the legacy view falls back
    to is for a missing key only. *)
Theorem X8_fact_lists_read_in_order_and_null_fails
  (d : dict) (objects : list dict) (items : list JSON) :
  Legacy.entity_relationships
    (dict_set "entityRelationships" (JArr (map JObj objects)) d) = OK objects /\
  Legacy.entity_attribute_values
    (dict_set "entityAttributeValues" (JArr (map JObj objects)) d)
  = OK objects /\
  entity_relationships
    (GenericObservationContentView_init
       (JObj (dict_set "entityRelationships" (JArr items) d)))
  = OK (map RelationshipView_init items) /\
  entity_attribute_values
    (GenericObservationContentView_init
       (JObj (dict_set "entityAttributeValues" (JArr items) d)))
  = OK (map AttributeValueView_init items) /\
  Legacy.entity_relationships (dict_set "entityRelationships" JNull d)
  = Raise TypeError /\
  Legacy.entity_attribute_values (dict_set "entityAttributeValues" JNull d)
  = Raise TypeError /\
  entity_relationships
    (GenericObservationContentView_init
       (JObj (dict_set "entityRelationships" JNull d)))
  = Raise TypeError /\
  entity_attribute_values
    (GenericObservationContentView_init
       (JObj (dict_set "entityAttributeValues" JNull d)))
  = Raise TypeError.
Proof.
  unfold Legacy.entity_relationships, Legacy.entity_attribute_values,
    entity_relationships, entity_attribute_values, _get, dict_get_default.
  cbn [view_data GenericObservationContentView_init].
  rewrite !dict_get_set_same. cbn [py_iter bind].
  repeat split; apply mapM_dict_of_objects.
Qed.

(** ** Observation types *)

(** X9: [ObservationTypes] has six members with six different values,
    each equal to the member's name; looking a member's value up gives the
    member back, and looking anything else up raises [ValueError]. *)
Theorem X9_observation_types_round_trip :
  (forall m,
     ObservationEnums.ObservationTypes_of_value
       (JStr (ObservationEnums.value m)) = OK m) /\
  (forall v,
     match ObservationEnums.ObservationTypes_of_value v with
     | OK m => v = JStr (ObservationEnums.value m)
     | Raise e =>
         e = ValueError /\ forall m, v <> JStr (ObservationEnums.value m)
     end) /\
  NoDup (map ObservationEnums.value ObservationEnums.members) /\
  (forall m, In m ObservationEnums.members) /\
  (forall m, ObservationEnums.name m = ObservationEnums.value m).
Proof.
  assert (Hrt : forall m,
     ObservationEnums.ObservationTypes_of_value
       (JStr (ObservationEnums.value m)) = OK m) by (intros []; reflexivity).
  split; [exact Hrt|]. split.
  - intros v.
    destruct (ObservationEnums.ObservationTypes_of_value v) as [m|e] eqn:E.
    + destruct v as [| | | |s| |]; try discriminate E.
      unfold ObservationEnums.ObservationTypes_of_value in E.
      destruct (find _ _) as [m'|] eqn:F; [|discriminate E].
      injection E as ->. apply find_some in F. destruct F as [_ F].
      apply String.eqb_eq in F. now rewrite F.
    + split.
      * destruct v as [| | | |s| |]; try (now injection E as <-).
        unfold ObservationEnums.ObservationTypes_of_value in E.
        destruct (find _ _); [discriminate E|now injection E as <-].
      * intros m ->. rewrite Hrt in E. discriminate E.
  - split; [|split; intros []; cbn; auto 10].
    repeat constructor; cbn; intuition discriminate.
Qed.

(** ** Request paths *)

Import Requests.

Lemma hex_digit_code (n : N) :
  (n < 16)%N ->
  N_of_ascii (hex_digit n) = (if (n <? 10)%N then 48 + n else 87 + n)%N.
Proof.
  intros H. unfold hex_digit.
  destruct (n <? 10)%N; apply N_ascii_embedding; lia.
Qed.

Lemma hex_digit_inj (a b : N) :
  (a < 16)%N -> (b < 16)%N -> hex_digit a = hex_digit b -> a = b.
Proof.
  intros Ha Hb E. apply (f_equal N_of_ascii) in E.
  rewrite (hex_digit_code a Ha), (hex_digit_code b Hb) in E.
  destruct (N.ltb_spec a 10), (N.ltb_spec b 10); lia.
Qed.

Lemma hex_chars_length (w : nat) : forall v, length (hex_chars w v) = w.
Proof.
  induction w as [|w IH]; intros v; cbn [hex_chars]; [reflexivity|].
  rewrite length_app, IH. cbn. lia.
Qed.

Lemma hex_chars_inj (w : nat) :
  forall a b : N,
    (a < 16 ^ N.of_nat w)%N -> (b < 16 ^ N.of_nat w)%N ->
    hex_chars w a = hex_chars w b -> a = b.
Proof.
  induction w as [|w IH]; intros a b Ha Hb E.
  - cbn in Ha, Hb. lia.
  - rewrite Nat2N.inj_succ, N.pow_succ_r' in Ha, Hb.
    cbn [hex_chars] in E. apply app_inj_tail in E. destruct E as [E1 E2].
    apply IH in E1; try (apply N.Div0.div_lt_upper_bound; assumption).
    apply hex_digit_inj in E2; try (apply N.mod_lt; discriminate).
    rewrite (N.div_mod a 16), (N.div_mod b 16) by discriminate.
    now rewrite E1, E2.
Qed.

Lemma string_of_list_ascii_app (a b : list ascii) :
  string_of_list_ascii (a ++ b)
  = (string_of_list_ascii a ++ string_of_list_ascii b)%string.
Proof. induction a as [|c a IH]; cbn; [reflexivity|]. now rewrite IH. Qed.

Lemma list_ascii_of_string_app (a b : string) :
  list_ascii_of_string (a ++ b)
  = list_ascii_of_string a ++ list_ascii_of_string b.
Proof. induction a as [|c a IH]; cbn; [reflexivity|]. now rewrite IH. Qed.

Lemma unhyphen_uuid_chars (u : UUID) :
  unhyphen (uuid_chars u) = hex_chars 32 (uuid_int u).
Proof.
  unfold uuid_chars, uuid_str. rewrite list_ascii_of_string_of_list_ascii.
  pose proof (hex_chars_length 32 (uuid_int u)) as H.
  generalize dependent (hex_chars 32 (uuid_int u)). intros h H.
  do 32 (destruct h as [|? h]; [cbn in H; lia|]).
  destruct h; [reflexivity|cbn in H; lia].
Qed.

Lemma uuid_chars_length (u : UUID) : length (uuid_chars u) = 36.
Proof.
  unfold uuid_chars, uuid_str. rewrite list_ascii_of_string_of_list_ascii.
  pose proof (hex_chars_length 32 (uuid_int u)) as H.
  generalize dependent (hex_chars 32 (uuid_int u)). intros h H.
  do 32 (destruct h as [|? h]; [cbn in H; lia|]).
  destruct h; [reflexivity|cbn in H; lia].
Qed.

(** Different UUIDs have different texts. *)
Lemma uuid_chars_inj (u u' : UUID) :
  (uuid_int u < 2 ^ 128)%N -> (uuid_int u' < 2 ^ 128)%N ->
  uuid_chars u = uuid_chars u' -> u = u'.
Proof.
  intros Hu Hu' E. apply (f_equal unhyphen) in E.
  rewrite !unhyphen_uuid_chars in E.
  apply hex_chars_inj in E; [|exact Hu|exact Hu'].
  destruct u, u'. cbn in E. now subst.
Qed.

Lemma app_inj_same_length {A : Type} (a a' b b' : list A) :
  length a = length a' -> a ++ b = a' ++ b' -> a = a' /\ b = b'.
Proof.
  revert a'. induction a as [|x a IH]; intros [|x' a'] Hlen E;
    try discriminate Hlen; cbn in *; auto.
  injection E as -> E. injection Hlen as Hlen.
  destruct (IH _ Hlen E) as [-> ->]. auto.
Qed.

Lemma app_inj_same_length_tail {A : Type} (a a' b b' : list A) :
  length b = length b' -> a ++ b = a' ++ b' -> a = a' /\ b = b'.
Proof.
  intros Hlen E. apply app_inj_same_length; [|exact E].
  apply (f_equal (@length A)) in E. rewrite !length_app in E. lia.
Qed.

Lemma list_ascii_of_string_inj (a b : string) :
  list_ascii_of_string a = list_ascii_of_string b -> a = b.
Proof.
  intros E. apply (f_equal string_of_list_ascii) in E.
  now rewrite !string_of_list_ascii_of_string in E.
Qed.

Lemma some_inj {A : Type} (a b : A) : Some a = Some b -> a = b.
Proof. now intros [= ->]. Qed.

Lemma view_last_path (c : connector) (u : UUID) :
  last_path (snd (view c u))
  = Some ("/enrichment/observations/generics/" ++ uuid_str u)%string.
Proof.
  unfold last_path, view, do_get, perform. cbn [snd sent].
  now rewrite rev_app_distr.
Qed.

Lemma forecast_last_path (kebab : RelationshipKinds -> string)
  (c : connector) (U V : UUID) (K : RelationshipKinds)
  (forecast_at : option datetime) (valuable_facts : option bool) :
  last_path
    (snd (Relationships.forecast kebab c U V K forecast_at valuable_facts))
  = Some ("/observable/relationships/" ++ uuid_str U ++ "/" ++ kebab K ++
          "/" ++ uuid_str V)%string.
Proof.
  unfold last_path, Relationships.forecast, do_get, perform. cbn [snd sent].
  now rewrite rev_app_distr.
Qed.

(** X10: a request path names its entities.  Two calls of [view] send the
    same path only for the same observation UUID, and two calls of
    [forecast] send the same path only for the same source UUID, the same
    target UUID and the same path segment of the kind, whatever that
    segment is. *)
Theorem X10_paths_determine_their_uuids
  (kebab : RelationshipKinds -> string) (c c' : connector)
  (U V U' V' : UUID) (K K' : RelationshipKinds)
  (forecast_at forecast_at' : option datetime)
  (valuable_facts valuable_facts' : option bool) :
  (uuid_int U < 2 ^ 128)%N -> (uuid_int V < 2 ^ 128)%N ->
  (uuid_int U' < 2 ^ 128)%N -> (uuid_int V' < 2 ^ 128)%N ->
  (last_path (snd (view c U)) = last_path (snd (view c' U')) -> U = U') /\
  (last_path
     (snd (Relationships.forecast kebab c U V K forecast_at valuable_facts))
   = last_path
       (snd (Relationships.forecast kebab c' U' V' K' forecast_at'
               valuable_facts')) ->
   U = U' /\ V = V' /\ kebab K = kebab K').
Proof.
  intros HU HV HU' HV'. split.
  - rewrite !view_last_path. intros E. apply some_inj in E.
    apply (f_equal list_ascii_of_string) in E.
    rewrite !list_ascii_of_string_app in E. apply app_inv_head in E.
    now apply uuid_chars_inj.
  - rewrite !forecast_last_path. intros E. apply some_inj in E.
    apply (f_equal list_ascii_of_string) in E.
    rewrite !list_ascii_of_string_app in E. apply app_inv_head in E.
    fold (uuid_chars U) (uuid_chars U') (uuid_chars V) (uuid_chars V') in E.
    apply app_inj_same_length in E;
      [|now rewrite !uuid_chars_length].
    destruct E as [EU E]. apply app_inv_head in E.
    apply app_inj_same_length_tail in E;
      [|rewrite !length_app, !uuid_chars_length; reflexivity].
    destruct E as [EK E]. apply app_inv_head in E.
    repeat split.
    + now apply uuid_chars_inj.
    + now apply uuid_chars_inj.
    + now apply list_ascii_of_string_inj.
Qed.

Lemma X10_paths_witness :
  last_path
    (snd (view {| sent := []; respond := fun _ _ => Raise ConnectionError |}
            Sample.entity_uuid))
  = Some "/enrichment/observations/generics/3a53cc35-f632-434c-bd4b-1ed8c014003a" /\
  Sample.entity_uuid = Sample.entity_uuid.
Proof.
  split; [reflexivity|].
  apply (X10_paths_determine_their_uuids (fun _ => "resolves-to")
           {| sent := []; respond := fun _ _ => Raise ConnectionError |}
           {| sent := []; respond := fun _ _ => OK JNull |}
           Sample.entity_uuid Sample.entity_uuid
           Sample.entity_uuid Sample.entity_uuid
           Sample.ResolvesTo Sample.ResolvesTo None None None None);
    reflexivity.
Defined.

(** ** The shape of the fact records *)

Lemma entity_json_is_object (entity : entity_ref) :
  exists d, entity_json entity = JObj d.
Proof. destruct entity as [u|[d]]; eexists; reflexivity. Qed.

Lemma attribute_facts_are_records (cs : list call) :
  Forall attribute_record (attribute_facts_of cs).
Proof.
  induction cs as [|[u|e a v c|s k t c] cs IH]; cbn [attribute_facts_of];
    auto.
  constructor; [|exact IH]. unfold attribute_record, attribute_fact.
  destruct (entity_json_is_object e) as [d ->]. now destruct c.
Qed.

Lemma relationship_facts_are_records (cs : list call) :
  Forall relationship_record (relationship_facts_of cs).
Proof.
  induction cs as [|[u|e a v c|s k t c] cs IH]; cbn [relationship_facts_of];
    auto.
  constructor; [|exact IH]. unfold relationship_record, relationship_fact.
  destruct (entity_json_is_object s) as [d ->].
  destruct (entity_json_is_object t) as [d' ->]. now destruct c.
Qed.

Lemma fact_counts (cs : list call) :
  length (attribute_facts_of cs)
  = length (filter (fun c => match c with
                             | AddAttributeFact _ _ _ _ => true
                             | _ => false
                             end) cs) /\
  length (relationship_facts_of cs)
  = length (filter (fun c => match c with
                             | AddEntityRelationship _ _ _ _ => true
                             | _ => false
                             end) cs).
Proof.
  induction cs as [|[u|e a v c|s k t c] cs [IHa IHr]]; cbn; auto.
Qed.

(** X11: every record of the two fact lists of a serialized document has
    exactly its four keys in the order written ([entity], [attributeName],
    [value], [confidence], or [source], [kind], [target], [confidence])
    and an object for each entity, whether it was given by UUID or as a
    form; and each list has one record per call of its method. *)
Theorem X11_fact_records_are_well_formed
  (share_level : ShareLevels) (seen_at : datetime) (cs : list call) :
  exists self attrs rels,
    apply_calls (GenericObservationForm_init share_level seen_at) cs = OK self /\
    content_entry (fst (json self)) "entityAttributeValues"
    = facts_entry attrs /\
    content_entry (fst (json self)) "entityRelationships"
    = facts_entry rels /\
    Forall attribute_record attrs /\
    Forall relationship_record rels /\
    length attrs
    = length (filter (fun c => match c with
                               | AddAttributeFact _ _ _ _ => true
                               | _ => false
                               end) cs) /\
    length rels
    = length (filter (fun c => match c with
                               | AddEntityRelationship _ _ _ _ => true
                               | _ => false
                               end) cs).
Proof.
  destruct (apply_calls_init share_level seen_at cs)
    as (self & Hrun & Hst & _).
  apply content_state_entries in Hst. destruct Hst as [Ha Hr].
  exists self, (attribute_facts_of cs), (relationship_facts_of cs).
  split; [exact Hrun|]. split; [exact Ha|]. split; [exact Hr|].
  split; [apply attribute_facts_are_records|].
  split; [apply relationship_facts_are_records|].
  apply fact_counts.
Qed.
